(** * Arbitrage trade execution pipeline and quote source

    A shallow embedding of [TradeExecutor] (executeArbitrageTrade,
    validateOpportunity) and of [DexAggregator] (getQuote and the token
    registry), with the theorems that settle the properties stated about
    them.

    JavaScript numbers are IEEE 754 binary64 values: they are modelled by
    Rocq's primitive floats, so products and comparisons are the machine's.
    Strings are byte strings (UTF-8); every index-based string operation of
    the source works on ASCII text. *)

From Stdlib Require Import ZArith String Ascii List Bool Floats Lia.
From Stdlib Require Import DecimalString.
Import ListNotations.

Set Warnings "-inexact-float".
Local Open Scope string_scope.

(* ===================================================================== *)
(** * The JavaScript built-ins the source relies on *)
(* ===================================================================== *)

Module Js.

(** ** Values that can be thrown

    Every [throw] of the source throws [new Error(msg)], and the handlers
    read [error.message] and [error.stack] only. *)
Record JsError := mkError {
  ename : string;
  emessage : string
}.

Definition newError (msg : string) : JsError := mkError "Error" msg.
Definition newTypeError (msg : string) : JsError := mkError "TypeError" msg.

(** [error.stack]: the header line; the frames that follow it are not
    observed by any decision of the program. *)
Definition stack (e : JsError) : string := ename e ++ ": " ++ emessage e.

(** ** Truthiness and the [||] operator *)

Definition truthyNum (x : float) : bool :=
  negb (PrimFloat.is_zero x || PrimFloat.is_nan x).

Definition truthyStr (s : string) : bool :=
  match s with EmptyString => false | _ => true end.

(** [a || d] where [a] is [number | null]. *)
Definition orNum (a : option float) (d : float) : float :=
  match a with
  | Some x => if truthyNum x then x else d
  | None => d
  end.

(** [a || b] where both sides are [string | null | undefined]. *)
Definition orStr (a b : option string) : option string :=
  match a with
  | Some s => if truthyStr s then a else b
  | None => b
  end.

(** [a || d] with a string literal as the right operand. *)
Definition orStrDefault (a : option string) (d : string) : string :=
  match a with
  | Some s => if truthyStr s then s else d
  | None => d
  end.

(** [!!a] for [string | undefined]. *)
Definition truthyOpt (a : option string) : bool :=
  match a with Some s => truthyStr s | None => false end.

(** ** Decimal digits *)

Definition isDigit (c : ascii) : bool :=
  let n := nat_of_ascii c in (48 <=? n)%nat && (n <=? 57)%nat.

Definition digitVal (c : ascii) : Z := Z.of_nat (nat_of_ascii c) - 48.

Fixpoint takeDigits (s : string) : string * string :=
  match s with
  | String c r =>
      if isDigit c then let (d, r') := takeDigits r in (String c d, r')
      else (EmptyString, s)
  | EmptyString => (EmptyString, EmptyString)
  end.

Fixpoint digitsValue (acc : Z) (s : string) : Z :=
  match s with
  | String c r => digitsValue (10 * acc + digitVal c) r
  | EmptyString => acc
  end.

(** Decimal rendering of an integer (BigInt [toString], and the digit
    strings of number formatting). *)
Definition ofZ (z : Z) : string := NilZero.string_of_int (Z.to_int z).

Fixpoint zeros (n : nat) : string :=
  match n with O => EmptyString | S k => String "0" (zeros k) end.

(** ** Exact decimal to binary64 conversion

    [decToFloat neg m e] is the binary64 value nearest to
    [(-1)^neg * m * 10^e], ties to even: the Number value of a decimal
    literal.  The rounding is the Standard Library's ([binary_round] for a
    product, [SFdiv] for a quotient of two integers). *)
Definition decToSF (neg : bool) (m e : Z) : spec_float :=
  match m with
  | Zpos p =>
      match e with
      | Zneg q =>
          SFdiv prec emax (S754_finite neg p 0)
                (S754_finite false (Pos.pow 10 q) 0)
      | Zpos q => binary_round prec emax neg (p * Pos.pow 10 q) 0
      | Z0 => binary_round prec emax neg p 0
      end
  | _ => S754_zero neg
  end.

Definition decToFloat (neg : bool) (m e : Z) : float :=
  SF2Prim (decToSF neg m e).

(** ** parseFloat *)

(** [StrWhiteSpaceChar]: white space and line terminators, as the byte
    sequences of their UTF-8 encodings. *)
Definition whiteSpaceCodes : list (list nat) :=
  [ [9]; [10]; [11]; [12]; [13]; [32]; [194; 160]; [225; 154; 128];
    [226; 128; 128]; [226; 128; 129]; [226; 128; 130]; [226; 128; 131];
    [226; 128; 132]; [226; 128; 133]; [226; 128; 134]; [226; 128; 135];
    [226; 128; 136]; [226; 128; 137]; [226; 128; 138]; [226; 128; 168];
    [226; 128; 169]; [226; 128; 175]; [226; 129; 159]; [227; 128; 128];
    [239; 187; 191] ]%nat.

Fixpoint stripBytes (bs : list nat) (s : string) : option string :=
  match bs with
  | [] => Some s
  | b :: bs' =>
      match s with
      | String c r =>
          if (nat_of_ascii c =? b)%nat then stripBytes bs' r else None
      | EmptyString => None
      end
  end.

Fixpoint stripWhite (ws : list (list nat)) (s : string) : option string :=
  match ws with
  | [] => None
  | w :: ws' =>
      match stripBytes w s with
      | Some r => Some r
      | None => stripWhite ws' s
      end
  end.

Fixpoint trimStartFuel (fuel : nat) (s : string) : string :=
  match fuel with
  | O => s
  | S k =>
      match stripWhite whiteSpaceCodes s with
      | Some r => trimStartFuel k r
      | None => s
      end
  end.

Definition trimStart (s : string) : string := trimStartFuel (String.length s) s.

Definition parseSign (s : string) : bool * string :=
  match s with
  | String "-" r => (true, r)
  | String "+" r => (false, r)
  | _ => (false, s)
  end.

(** The value of an optional [ExponentPart]; an incomplete one is not part
    of the parsed prefix. *)
Definition parseExponent (s : string) : Z :=
  match s with
  | String c r =>
      if (Ascii.eqb c "e" || Ascii.eqb c "E")%bool then
        let (neg, r1) := parseSign r in
        let (d, _) := takeDigits r1 in
        match d with
        | EmptyString => 0
        | _ => if neg then - digitsValue 0 d else digitsValue 0 d
        end
      else 0
  | EmptyString => 0
  end%Z.

(** [parseFloat(input)]: the longest prefix of the trimmed input that is a
    [StrDecimalLiteral], or NaN when there is none. *)
Definition parseFloat (input : string) : float :=
  let s := trimStart input in
  let (neg, s1) := parseSign s in
  if prefix "Infinity" s1 then (if neg then neg_infinity else infinity)
  else
    let (ip, s2) := takeDigits s1 in
    let (fp, s3) :=
      match s2 with
      | String "." r => takeDigits r
      | _ => (EmptyString, s2)
      end in
    match ip, fp with
    | EmptyString, EmptyString => nan
    | _, _ =>
        decToFloat neg (digitsValue 0 (ip ++ fp))
                   (parseExponent s3 - Z.of_nat (String.length fp))
    end.

(** ** Number::toString (radix 10) *)

(** A finite positive binary64 value [m * 2^e] as an exact fraction. *)
Definition ratOf (m : positive) (e : Z) : Z * Z :=
  if (0 <=? e)%Z then (Zpos m * 2 ^ e, 1)%Z else (Zpos m, 2 ^ (- e))%Z.

(** [num / den < 10^n] *)
Definition ltPow10 (num den n : Z) : bool :=
  if (0 <=? n)%Z then (num <? den * 10 ^ n)%Z
  else (num * 10 ^ (- n) <? den)%Z.

(** The least [n] from [n0] on with [num / den < 10^n]. *)
Fixpoint findExp (fuel : nat) (num den n0 : Z) : Z :=
  match fuel with
  | O => n0
  | S k => if ltPow10 num den n0 then n0 else findExp k num den (n0 + 1)
  end.

(** [floor (num / den * 10^j)] and whether the remainder is below, at or
    above one half. *)
Definition scaleDiv (num den j : Z) : Z * comparison :=
  let (a, b) := if (0 <=? j)%Z then (num * 10 ^ j, den)%Z
                else (num, den * 10 ^ (- j))%Z in
  (a / b, (2 * (a mod b) ?= b))%Z.

(** A [k]-digit candidate [c] for exponent [n]: carried over to the next
    power of ten when it has [k + 1] digits; kept when it reads back as
    [x]. *)
Definition candidate (x : float) (k n c : Z) : option (Z * Z) :=
  let (s, n') := if (c =? 10 ^ k)%Z then (10 ^ (k - 1), n + 1)%Z
                 else (c, n) in
  if PrimFloat.eqb (decToFloat false s (n' - k)) x then Some (s, n')
  else None.

(** The shortest digit string [s] (with [k] digits) and exponent [n] such
    that [s * 10^(n-k)] reads back as [x]; the closest one when two fit,
    the even one at a tie. *)
Fixpoint shortest (fuel : nat) (x : float) (num den n k : Z)
  : Z * Z * Z :=
  let (lo, half) := scaleDiv num den (k - n) in
  match fuel with
  | O => (lo, k, n)
  | S fuel' =>
      match candidate x k n lo, candidate x k n (lo + 1) with
      | Some (s1, n1), Some (s2, n2) =>
          match half with
          | Lt => (s1, k, n1)
          | Gt => (s2, k, n2)
          | Eq => if Z.even s1 then (s1, k, n1) else (s2, k, n2)
          end
      | Some (s1, n1), None => (s1, k, n1)
      | None, Some (s2, n2) => (s2, k, n2)
      | None, None => shortest fuel' x num den n (k + 1)
      end
  end%Z.

Definition formatDigits (s k n : Z) : string :=
  let d := ofZ s in
  if ((k <=? n) && (n <=? 21))%Z then d ++ zeros (Z.to_nat (n - k))
  else if ((0 <? n) && (n <=? 21))%Z then
    substring 0 (Z.to_nat n) d ++ "." ++
    substring (Z.to_nat n) (Z.to_nat (k - n)) d
  else if ((-6 <? n) && (n <=? 0))%Z then
    "0." ++ zeros (Z.to_nat (- n)) ++ d
  else
    let e := (n - 1)%Z in
    let es := (if (0 <=? e)%Z then "+" else "-") ++ ofZ (Z.abs e) in
    if (k =? 1)%Z then d ++ "e" ++ es
    else substring 0 1 d ++ "." ++ substring 1 (Z.to_nat (k - 1)) d
         ++ "e" ++ es.

Definition toString (x : float) : string :=
  match Prim2SF x with
  | S754_nan => "NaN"
  | S754_zero _ => "0"
  | S754_infinity s => if s then "-Infinity" else "Infinity"
  | S754_finite sg m e =>
      let (num, den) := ratOf m e in
      let n := findExp 640 num den (-324) in
      let '(s, k, n') := shortest 17 (PrimFloat.abs x) num den n 1 in
      (if sg then "-" else "") ++ formatDigits s k n'
  end.

(** ** Number.prototype.toFixed

    Every call of the source passes a literal between 0 and 100, so the
    RangeError of the built-in cannot arise. *)
Definition toFixed (x : float) (f : nat) : string :=
  let pad (d : string) :=
    match f with
    | O => d
    | _ =>
        let d' := zeros (S f - String.length d) ++ d in
        let k := String.length d' in
        substring 0 (k - f) d' ++ "." ++ substring (k - f) f d'
    end in
  match Prim2SF x with
  | S754_nan => "NaN"
  | S754_infinity s => if s then "-Infinity" else "Infinity"
  | S754_zero _ => pad "0"
  | S754_finite sg m e =>
      let (num, den) := ratOf m e in
      if ltPow10 num den 21 then
        let n := ((2 * num * 10 ^ Z.of_nat f + den) / (2 * den))%Z in
        (if sg then "-" else "") ++ pad (ofZ n)
      else toString x
  end.

End Js.

Import Js.

(** Line feed, for the [\n] of the source's string literals. *)
Definition nl : string := String (ascii_of_nat 10) EmptyString.

(** [s.substring(n)] *)
Definition substringFrom (n : nat) (s : string) : string :=
  substring n (String.length s - n) s.

(* ===================================================================== *)
(** * Data model *)
(* ===================================================================== *)

(** Token metadata as the opportunity carries it and as the aggregator's
    registry resolves it. *)
Record Token := mkToken {
  symbol : string;
  name : string;
  address : string;
  decimals : Z
}.

(** [ArbitrageOpportunity], read-only input of the pipeline. *)
Record ArbitrageOpportunity := mkOpportunity {
  id : string;
  tokenIn : Token;
  tokenOut : Token;
  buyDex : string;
  sellDex : string;
  flashLoanAmount : string;
  estimatedProfitUsd : float;
  estimatedGasCostUsd : float;
  netProfitPercent : float;
  timestamp : float
}.

(** [BotConfig]: the settings the two functions read.  Unset (null)
    columns are [None]; the two decimal columns are held as the strings
    their [toString()] yields. *)
Record BotConfig := mkBotConfig {
  enableRealTrading : bool;
  privateKey : option string;
  networkMode : string;
  maxGasPriceGwei : option float;
  minNetProfitPercent : option string;
  telegramProfitThresholdUsd : option string;
  oneinchApiKey : option string
}.

Record TradeExecutionResult := mkResult {
  success : bool;
  txHash : option string;
  profitUsd : option float;
  gasCostUsd : option float;
  message : string;
  error : option string;
  executionTime : option float
}.

Inductive LogLevel := info | warning | error_level | success_level.

(** Values of the free-form [metadata] object of an audit-log entry. *)
Inductive Meta :=
| MStr (s : string)
| MNum (x : float)
| MBool (b : bool)
| MNull.

Record ActivityLog := mkLog {
  log_type : string;
  level : LogLevel;
  log_message : string;
  metadata : list (string * Meta)
}.

Inductive TxStatus := status_success | status_pending | status_failed.

Record ArbitrageTransaction := mkTx {
  tx_txHash : string;
  tx_tokenIn : string;
  tx_tokenOut : string;
  tx_amountIn : string;
  tx_amountOut : string;
  tx_profitUsd : string;
  tx_gasCostUsd : string;
  tx_netProfitUsd : string;
  status : TxStatus;
  dexPath : string
}.

Record QuoteParams := mkParams {
  src : string;
  dst : string;
  amount : string;
  from : option string
}.

Record SwapQuote := mkQuote {
  fromToken : Token;
  toToken : Token;
  fromAmount : string;
  toAmount : option string;
  estimatedGas : string;
  protocols : option string;
  dex : string
}.

(** What a built swap leg is read for: its [toAmount]. *)
Record SwapTransaction := mkSwap { swap_toAmount : string }.

(** The body of a 1inch quote response ([response.data]), each property
    present or not. *)
Record QuoteResponse := mkResponse {
  data_toAmount : option string;
  data_toTokenAmount : option string;
  data_estimatedGas : option string;
  data_protocols : option string
}.

(* ===================================================================== *)
(** * DexAggregator (server/dexAggregator.ts): constants and registry *)
(* ===================================================================== *)

Definition INCH_API_BASE := "https://api.1inch.dev/swap/v6.0".
Definition POLYGON_CHAIN_ID := "137".

Module TOKENS.
Definition MATIC := "0xEeeeeEeeeEeEeeEeEeEeeEEEeeeeEeeeeeeeEEeE".
Definition WMATIC := "0x0d500B1d8E8eF31E21C99d1Db9A6444d3ADf1270".
Definition USDC := "0x2791Bca1f2de4661ED88A30C99A7a9449Aa84174".
Definition USDT := "0xc2132D05D31c914a87C6611C10748AEb04B58e8F".
Definition WETH := "0x7ceB23fD6bC0adD59E62ac25578270cFf1b9f619".
Definition DAI := "0x8f3Cf7ad23Cd3CaDbD9735AFf958023239c6A063".
Definition WBTC := "0x1BFD67037B42Cf73acF2047067bd4F2C47D9BfD6".
End TOKENS.

(** The aggregator object: its only field. *)
Record DexAggregator := mkDexAggregator { apiKey : option string }.

(** [constructor(apiKey?) { this.apiKey = apiKey || null }] *)
Definition newDexAggregator (key : option string) : DexAggregator :=
  mkDexAggregator (orStr key None).

Definition getSupportedTokens : list Token :=
  [ mkToken "MATIC" "Polygon" TOKENS.MATIC 18;
    mkToken "WMATIC" "Wrapped MATIC" TOKENS.WMATIC 18;
    mkToken "USDC" "USD Coin" TOKENS.USDC 6;
    mkToken "USDT" "Tether USD" TOKENS.USDT 6;
    mkToken "WETH" "Wrapped Ether" TOKENS.WETH 18;
    mkToken "DAI" "Dai Stablecoin" TOKENS.DAI 18;
    mkToken "WBTC" "Wrapped BTC" TOKENS.WBTC 8 ].

(** [toLowerCase] on the bytes of the string.  The registry addresses are
    ASCII and hold none of the letters that a non-ASCII character can
    lower-case to, so the comparison below is the source's. *)
Definition lowerAscii (c : ascii) : ascii :=
  let n := nat_of_ascii c in
  if ((65 <=? n) && (n <=? 90))%nat then ascii_of_nat (n + 32) else c.

Fixpoint toLowerCase (s : string) : string :=
  match s with
  | String c r => String (lowerAscii c) (toLowerCase r)
  | EmptyString => EmptyString
  end.

Definition getTokenInfo (addr : string) : Token :=
  match find (fun t => toLowerCase (address t) =? toLowerCase addr)
             getSupportedTokens with
  | Some token => token
  | None => mkToken "UNKNOWN" "Unknown Token" addr 18
  end.

(** The synthetic pricing table of demo mode. *)
Definition demoToAmount (params : QuoteParams) : string :=
  let fromAmount := amount params in
  if (src params =? TOKENS.MATIC) && (dst params =? TOKENS.USDC) then
    toFixed (parseFloat fromAmount * 0.7) 6
  else if (src params =? TOKENS.USDC) && (dst params =? TOKENS.MATIC) then
    toFixed (parseFloat fromAmount / 0.7) 6
  else if (src params =? TOKENS.WMATIC) && (dst params =? TOKENS.USDC) then
    toFixed (parseFloat fromAmount * 0.7) 6
  else if (src params =? TOKENS.USDC) && (dst params =? TOKENS.WETH) then
    toFixed (parseFloat fromAmount / 2500) 8
  else if (src params =? TOKENS.WETH) && (dst params =? TOKENS.USDC) then
    toFixed (parseFloat fromAmount * 2500) 6
  else fromAmount.

(* ===================================================================== *)
(** * Collaborators, traces and the execution monad *)
(* ===================================================================== *)

(** A call that crosses the boundary of the core. *)
Inductive Call :=
| console_log (line : string)
| console_error (line : string)
| createActivityLog (userId : string) (entry : ActivityLog)
| getBotConfig (userId : string)
| createArbitrageTransaction (userId : string) (tx : ArbitrageTransaction)
| getNativeBalance (walletAddress : string) (chainId : Z)
| getGasPrice
| sendTelegramMessage (userId text category : string)
| axios_get (url : string) (params : QuoteParams) (bearer : string)
| buildSwapTransaction (params : QuoteParams).

(** One entry of the trace: the call, and whether it returned ([true]) or
    threw ([false]). *)
Record Event := mkEvent { call : Call; returned : bool }.

Definition Outcome (A : Type) : Type := (JsError + A)%type.

Definition isReturn {A} (r : Outcome A) : bool :=
  match r with inr _ => true | inl _ => false end.

Section Core.

(** The state of everything outside the core: stores, network, clock,
    random source.  Nothing is assumed about it. *)
Context {World : Type}.

(** The behaviour of the collaborators: each call may return or throw, and
    may change the world. *)
Record Collaborators := mkCollaborators {
  storage_createActivityLog :
    string -> ActivityLog -> World -> Outcome unit * World;
  storage_getBotConfig :
    string -> World -> Outcome (option BotConfig) * World;
  storage_createArbitrageTransaction :
    string -> ArbitrageTransaction -> World -> Outcome unit * World;
  web3Provider_getNativeBalance :
    string -> Z -> World -> Outcome string * World;
  web3Provider_getGasPrice : World -> Outcome string * World;
  telegram_sendTelegramMessage :
    string -> string -> string -> World -> Outcome unit * World;
  axios : string -> QuoteParams -> string -> World
          -> Outcome QuoteResponse * World;
  (** [new ethers.Wallet(key).address] *)
  ethers_Wallet : string -> Outcome string;
  ethers_parseUnits : string -> Z -> Outcome Z;
  process_env_PRIVATE_KEY : World -> option string;
  Date_now : World -> float * World;
  Math_random : World -> float * World;
  (** [x.toString(16)], whose digits are the engine's choice. *)
  Number_toString16 : float -> string
}.

Variable C : Collaborators.

Definition State : Type := (World * list Event)%type.

(** Computations: they read and change the world, extend the trace, and
    return or throw. *)
Definition M (A : Type) : Type := State -> Outcome A * State.

Definition ret {A} (a : A) : M A := fun s => (inr a, s).

Definition throw {A} (e : JsError) : M A := fun s => (inl e, s).

Definition bind {A B} (m : M A) (k : A -> M B) : M B :=
  fun s =>
    match m s with
    | (inr a, s') => k a s'
    | (inl e, s') => (inl e, s')
    end.

(** [try { m } catch (e) { ... }], with the outcome handed to the code
    that follows. *)
Definition attempt {A} (m : M A) : M (Outcome A) :=
  fun s => let (r, s') := m s in (inr r, s').

Definition tryCatch {A} (m : M A) (h : JsError -> M A) : M A :=
  bind (attempt m) (fun r => match r with inl e => h e | inr a => ret a end).

Definition liftOutcome {A} (r : Outcome A) : M A :=
  match r with inl e => throw e | inr a => ret a end.

(** A collaborator call: run it on the world, log the event. *)
Definition invoke {A} (c : Call) (f : World -> Outcome A * World) : M A :=
  fun s =>
    let (w, t) := s in
    let (r, w') := f w in
    (r, (w', t ++ [mkEvent c (isReturn r)])%list).

(** A read of the world that cannot throw and leaves no trace. *)
Definition sample {A} (f : World -> A * World) : M A :=
  fun s => let (w, t) := s in let (a, w') := f w in (inr a, (w', t)).

(** Console output always returns. *)
Definition console (c : Call) : M unit := invoke c (fun w => (inr tt, w)).

Notation "x <- m ;; k" := (bind m (fun x => k))
  (at level 61, m at next level, right associativity).
Notation "m ;; k" := (bind m (fun _ => k))
  (at level 61, right associativity).

(** ** DexAggregator.getQuote *)

Definition getQuote (this : DexAggregator) (params : QuoteParams)
  : M SwapQuote :=
  let fromTokenInfo := getTokenInfo (src params) in
  let toTokenInfo := getTokenInfo (dst params) in
  live <-
    match apiKey this with
    | Some key =>
        if truthyStr key then
          tryCatch
            (data <- invoke
               (axios_get (INCH_API_BASE ++ "/" ++ POLYGON_CHAIN_ID ++ "/quote")
                          params key)
               (axios C (INCH_API_BASE ++ "/" ++ POLYGON_CHAIN_ID ++ "/quote")
                      params key) ;;
             ret (Some (mkQuote fromTokenInfo toTokenInfo (amount params)
                          (orStr (data_toAmount data) (data_toTokenAmount data))
                          (orStrDefault (data_estimatedGas data) "250000")
                          (data_protocols data)
                          "1inch")))
            (fun error =>
               console (console_error
                 ("1inch API error, falling back to demo mode: "
                  ++ emessage error)) ;;
               ret None)
        else ret None
    | None => ret None
    end ;;
  match live with
  | Some quote => ret quote
  | None =>
      let fromAmount := amount params in
      let estimatedToAmount := demoToAmount params in
      r <- sample (Math_random C) ;;
      ret (mkQuote fromTokenInfo toTokenInfo fromAmount
             (Some estimatedToAmount) "250000" None
             (if (0.5 <? r)%float then "1inch" else "QuickSwap"))
  end.

(** A member function of the aggregator that builds a swap leg: it may
    return or throw, and may change the world. *)
Definition SwapBuilder : Type :=
  DexAggregator -> QuoteParams -> World -> Outcome SwapTransaction * World.

(** The class declares [getQuote], [getTokenPrices], [executeSwap],
    [getSupportedTokens], [getTokenInfo] and [getArbitrageOpportunities],
    and nothing else: the property [buildSwapTransaction] of an instance is
    [undefined]. *)
Definition DexAggregator_buildSwapTransaction : option SwapBuilder := None.

(* ===================================================================== *)
(** * TradeExecutor *)
(* ===================================================================== *)

(** The call [dexAggregator.buildSwapTransaction(params)]: when the
    property is undefined the call throws a TypeError (the argument object
    is built first, without effect). *)
Definition callBuildSwapTransaction (member : option SwapBuilder)
           (dexAggregator : DexAggregator) (params : QuoteParams)
  : M SwapTransaction :=
  match member with
  | Some f => invoke (buildSwapTransaction params) (f dexAggregator params)
  | None =>
      throw (newTypeError
               "dexAggregator.buildSwapTransaction is not a function")
  end.

Definition pairName (o : ArbitrageOpportunity) : string :=
  symbol (tokenIn o) ++ "/" ++ symbol (tokenOut o).

Definition dexsName (o : ArbitrageOpportunity) : string :=
  buyDex o ++ " → " ++ sellDex o.

Definition modeName (isSimulation : bool) : string :=
  if isSimulation then "simulation" else "real".

(** [config.maxGasPriceGwei || 60] *)
Definition gasCeiling (config : BotConfig) : float :=
  orNum (maxGasPriceGwei config) 60.

(** [config.maxGasPriceGwei] as a metadata value and inside a template. *)
Definition metaMaxGas (config : BotConfig) : Meta :=
  match maxGasPriceGwei config with Some x => MNum x | None => MNull end.

Definition showMaxGas (config : BotConfig) : string :=
  match maxGasPriceGwei config with Some x => toString x | None => "null" end.

Definition minMaticRequired : float := 0.1.

(** ** The thrown errors *)

Definition errConfigNotFound : JsError :=
  newError "Bot configuration not found".

Definition errTradingDisabled : JsError :=
  newError "Real trading is disabled in configuration".

Definition errPrivateKey : JsError :=
  newError "Private key not configured for real trading. Set PRIVATE_KEY in environment or Settings.".

Definition errInsufficientMatic (currentMatic : float) : JsError :=
  newError ("Insufficient MATIC balance: " ++ toFixed currentMatic 4
            ++ " MATIC (minimum: " ++ toString minMaticRequired
            ++ " MATIC required for gas)").

Definition errGasTooHigh (currentGasGwei : float) (config : BotConfig)
  : JsError :=
  newError ("Gas price too high: " ++ toString currentGasGwei
            ++ " Gwei (max: " ++ showMaxGas config ++ ")").

(** ** The audit-log entries, in the order of the source *)

Definition logValidation (o : ArbitrageOpportunity) (isSimulation : bool)
  : ActivityLog :=
  mkLog "trade_execution" info
    ("🔍 ШАГ 1/7: Проверка арбитражной возможности " ++ pairName o)
    [ ("opportunityId", MStr (id o));
      ("expectedProfit", MNum (estimatedProfitUsd o));
      ("mode", MStr (modeName isSimulation));
      ("step", MStr "1_validation");
      ("buyDex", MStr (buyDex o));
      ("sellDex", MStr (sellDex o)) ].

Definition logKeyMissing : ActivityLog :=
  mkLog "trade_execution" error_level
    "❌ ОШИБКА: Приватный ключ не настроен для реальной торговли. Установите PRIVATE_KEY в переменных окружения или в Settings → Safe & Ledger"
    [ ("step", MStr "2_validation_failed");
      ("error", MStr "private_key_not_configured");
      ("recommendation",
       MStr "Добавьте PRIVATE_KEY в Secrets или в настройках приложения") ].

Definition logKeyValidated (config : BotConfig) (key : option string)
  : ActivityLog :=
  mkLog "trade_execution" info
    ("🔐 ШАГ 2/7: Приватный ключ подтвержден "
     ++ (if truthyOpt key then "(настроен)" else "(отсутствует)"))
    [ ("step", MStr "2_key_validation");
      ("keySource",
       MStr (if truthyOpt (privateKey config) then "config"
             else "environment"));
      ("isConfigured", MBool (truthyOpt key)) ].

Definition logBalance (currentMatic : float) (walletAddress : string)
  : ActivityLog :=
  mkLog "trade_execution" info
    ("💰 ШАГ 3/7: Проверка баланса MATIC: " ++ toFixed currentMatic 4
     ++ " MATIC "
     ++ (if (currentMatic <? minMaticRequired)%float then "⚠️ НИЗКИЙ!"
         else "✅"))
    [ ("step", MStr "3_balance_check");
      ("maticBalance", MNum currentMatic);
      ("minRequired", MNum minMaticRequired);
      ("walletAddress", MStr walletAddress);
      ("isSufficient", MBool (minMaticRequired <=? currentMatic)%float) ].

Definition logBalanceFailed (e : JsError) : ActivityLog :=
  mkLog "trade_execution" warning
    ("⚠️ Не удалось проверить баланс MATIC: " ++ emessage e)
    [ ("step", MStr "3_balance_check_failed");
      ("error", MStr (emessage e)) ].

Definition logGas (currentGasGwei : float) (config : BotConfig)
           (maticBalance : string) : ActivityLog :=
  mkLog "trade_execution" info
    ("⛽ ШАГ 4/7: Проверка цены газа: " ++ toFixed currentGasGwei 1
     ++ " Gwei "
     ++ (if (gasCeiling config <? currentGasGwei)%float then "⚠️ ВЫСОКАЯ!"
         else "✅"))
    [ ("step", MStr "4_gas_check");
      ("gasGwei", MNum currentGasGwei);
      ("maxGasGwei", metaMaxGas config);
      ("maticBalance", MStr maticBalance);
      ("isAcceptable", MBool (currentGasGwei <=? gasCeiling config)%float) ].

Definition logGasTooHigh (currentGasGwei : float) (config : BotConfig)
  : ActivityLog :=
  mkLog "trade_execution" error_level
    ("❌ ОШИБКА: Цена газа слишком высокая " ++ toFixed currentGasGwei 1
     ++ " Gwei (максимум: " ++ showMaxGas config
     ++ " Gwei). Ожидание снижения...")
    [ ("step", MStr "4_gas_too_high");
      ("gasGwei", MNum currentGasGwei);
      ("maxGasGwei", metaMaxGas config);
      ("recommendation",
       MStr "Дождитесь снижения цены газа или увеличьте лимит в Settings") ].

Definition logMockTransaction : ActivityLog :=
  mkLog "trade_execution" info
    "⚡ ШАГ 5/7: СИМУЛЯЦИЯ - Подготовка мок-транзакции"
    [ ("mode", MStr "simulation"); ("step", MStr "5_mock_transaction") ].

Definition logSimulationDone (o : ArbitrageOpportunity) : ActivityLog :=
  mkLog "trade_execution" success_level
    ("✅ ШАГ 7/7: СИМУЛЯЦИЯ ЗАВЕРШЕНА! Прибыль: $"
     ++ toFixed (estimatedProfitUsd o) 2)
    [ ("mode", MStr "simulation");
      ("pair", MStr (pairName o));
      ("profit", MNum (estimatedProfitUsd o));
      ("dexs", MStr (dexsName o));
      ("step", MStr "7_completed") ].

Definition logRealExecution (o : ArbitrageOpportunity) : ActivityLog :=
  mkLog "trade_execution" warning
    "⚠️ ШАГ 5/7: РЕАЛЬНАЯ ТОРГОВЛЯ - Начало исполнения с реальными средствами"
    [ ("mode", MStr "real");
      ("step", MStr "5_real_execution");
      ("pair", MStr (pairName o));
      ("expectedProfit", MNum (estimatedProfitUsd o)) ].

Definition logSwapPreparation (o : ArbitrageOpportunity)
           (buySwap sellSwap : SwapTransaction) : ActivityLog :=
  mkLog "trade_execution" info
    "🔄 ШАГ 6/7: Транзакции свопов подготовлены - выполнение Flash Loan через Aave V3"
    [ ("step", MStr "6_swap_preparation");
      ("buyAmount", MStr (swap_toAmount buySwap));
      ("sellAmount", MStr (swap_toAmount sellSwap));
      ("buyDex", MStr (buyDex o));
      ("sellDex", MStr (sellDex o)) ].

Definition logTransactionSent (o : ArbitrageOpportunity) (realTxHash : string)
  : ActivityLog :=
  mkLog "trade_execution" success_level
    ("✅ ШАГ 7/7: ТРАНЗАКЦИЯ ОТПРАВЛЕНА! TX: " ++ substring 0 10 realTxHash
     ++ "...")
    [ ("step", MStr "7_transaction_sent");
      ("txHash", MStr realTxHash);
      ("profit", MNum (estimatedProfitUsd o));
      ("status", MStr "pending_confirmation") ].

Definition logFailure (o : ArbitrageOpportunity) (isSimulation : bool)
           (e : JsError) : ActivityLog :=
  mkLog "trade_execution" error_level
    ("❌ Ошибка исполнения сделки: " ++ emessage e)
    [ ("error", MStr (stack e));
      ("opportunity", MStr (id o));
      ("mode", MStr (modeName isSimulation)) ].

(** ** The transaction records *)

Definition txSimulated (o : ArbitrageOpportunity) (mockTxHash : string)
  : ArbitrageTransaction :=
  mkTx mockTxHash (symbol (tokenIn o)) (symbol (tokenOut o))
       (flashLoanAmount o)
       (toString (parseFloat (flashLoanAmount o) * 1.01))
       (toString (estimatedProfitUsd o))
       (toString (estimatedGasCostUsd o))
       (toString (estimatedProfitUsd o - estimatedGasCostUsd o))
       status_success (dexsName o).

Definition txPending (o : ArbitrageOpportunity) (realTxHash : string)
           (buySwap : SwapTransaction) : ArbitrageTransaction :=
  mkTx realTxHash (symbol (tokenIn o)) (symbol (tokenOut o))
       (flashLoanAmount o)
       (swap_toAmount buySwap)
       (toString (estimatedProfitUsd o))
       (toString (estimatedGasCostUsd o))
       (toString (estimatedProfitUsd o - estimatedGasCostUsd o))
       status_pending (dexsName o).

Definition txFailed (o : ArbitrageOpportunity) : ArbitrageTransaction :=
  mkTx "0x0" (symbol (tokenIn o)) (symbol (tokenOut o))
       (flashLoanAmount o) "0" "0" "0" "0" status_failed (dexsName o).

(** ** The notifications *)

Definition telegramSimulation (o : ArbitrageOpportunity)
           (startTime now : float) (mockTxHash : string) : string :=
  "🎯 <b>СИМУЛЯЦИЯ: Арбитражная сделка</b>" ++ nl ++ nl
  ++ "💹 Пара: " ++ pairName o ++ nl
  ++ "📊 DEX: " ++ dexsName o ++ nl
  ++ "💰 Прибыль: $" ++ toFixed (estimatedProfitUsd o) 2
  ++ " (" ++ toFixed (netProfitPercent o) 2 ++ "%)" ++ nl
  ++ "⛽ Gas: $" ++ toFixed (estimatedGasCostUsd o) 2 ++ nl
  ++ "⏱ Время: " ++ toFixed ((now - startTime) / 1000) 1 ++ "s" ++ nl
  ++ "🔗 TX: " ++ substring 0 10 mockTxHash ++ "...".

Definition telegramPending (o : ArbitrageOpportunity) (realTxHash : string)
  : string :=
  "🚀 <b>РЕАЛЬНАЯ ТОРГОВЛЯ: Сделка отправлена</b>" ++ nl ++ nl
  ++ "💹 Пара: " ++ pairName o ++ nl
  ++ "📊 DEX: " ++ dexsName o ++ nl
  ++ "💰 Ожидаемая прибыль: $" ++ toFixed (estimatedProfitUsd o) 2 ++ nl
  ++ "⛽ Gas: ~$" ++ toFixed (estimatedGasCostUsd o) 2 ++ nl
  ++ "🔗 TX: " ++ realTxHash ++ nl
  ++ "⏳ Статус: Ожидание подтверждения...".

(** ** Collaborator calls, as the executor makes them *)

Definition storage_log (userId : string) (entry : ActivityLog) : M unit :=
  invoke (createActivityLog userId entry)
         (storage_createActivityLog C userId entry).

Definition storage_config (userId : string) : M (option BotConfig) :=
  invoke (getBotConfig userId) (storage_getBotConfig C userId).

Definition storage_tx (userId : string) (tx : ArbitrageTransaction)
  : M unit :=
  invoke (createArbitrageTransaction userId tx)
         (storage_createArbitrageTransaction C userId tx).

Definition web3_balance (walletAddress : string) (chainId : Z) : M string :=
  invoke (getNativeBalance walletAddress chainId)
         (web3Provider_getNativeBalance C walletAddress chainId).

Definition web3_gasPrice : M string :=
  invoke getGasPrice (web3Provider_getGasPrice C).

Definition telegram (userId text category : string) : M unit :=
  invoke (sendTelegramMessage userId text category)
         (telegram_sendTelegramMessage C userId text category).

(** [`0x${Math.random().toString(16).substring(2)}${Math.random()...}`] *)
Definition randomTxHash : M string :=
  r1 <- sample (Math_random C) ;;
  r2 <- sample (Math_random C) ;;
  ret ("0x" ++ substringFrom 2 (Number_toString16 C r1)
            ++ substringFrom 2 (Number_toString16 C r2)).

(** ** Step 5: the gas-reserve check

    [let maticBalance = '0'; if (!isSimulation && privateKey) { try { ... }
    catch (error) { ... } }].  The block assigns [maticBalance] right after
    the balance query, so a failure before the assignment leaves it at
    ['0'] and a failure after it finds it assigned; the handler is the same
    in both cases and runs outside the [try].  The value returned is the
    final [maticBalance]. *)
Definition balanceHandler (userId : string) (e : JsError) : M unit :=
  console (console_error ("Failed to check MATIC balance: " ++ stack e)) ;;
  storage_log userId (logBalanceFailed e).

Definition checkMaticBalance (userId : string) (config : BotConfig)
           (isSimulation : bool) (key : option string) : M string :=
  match key with
  | Some pk =>
      if negb isSimulation && truthyStr pk then
        queried <- attempt
          (walletAddress <- liftOutcome (ethers_Wallet C pk) ;;
           let chainId : Z :=
             if networkMode config =? "mainnet" then 137%Z else 80002%Z in
           balanceFormatted <- web3_balance walletAddress chainId ;;
           ret (walletAddress, balanceFormatted)) ;;
        match queried with
        | inl e => balanceHandler userId e ;; ret "0"
        | inr (walletAddress, maticBalance) =>
            let currentMatic := parseFloat maticBalance in
            checked <- attempt
              (storage_log userId (logBalance currentMatic walletAddress) ;;
               if (currentMatic <? minMaticRequired)%float
               then throw (errInsufficientMatic currentMatic)
               else ret tt) ;;
            match checked with
            | inl e => balanceHandler userId e ;; ret maticBalance
            | inr _ => ret maticBalance
            end
        end
      else ret "0"
  | None => ret "0"
  end.

(** ** Steps 6 and 7 of the simulation branch *)
Definition simulate (userId : string) (o : ArbitrageOpportunity)
           (config : BotConfig) (startTime : float)
  : M TradeExecutionResult :=
  console (console_log "📊 SIMULATION MODE - Creating mock transaction") ;;
  storage_log userId logMockTransaction ;;
  storage_log userId (logSimulationDone o) ;;
  mockTxHash <- randomTxHash ;;
  storage_tx userId (txSimulated o mockTxHash) ;;
  let profitThreshold :=
    parseFloat (orStrDefault (telegramProfitThresholdUsd config) "10") in
  (if (profitThreshold <=? estimatedProfitUsd o)%float then
     now <- sample (Date_now C) ;;
     telegram userId (telegramSimulation o startTime now mockTxHash)
              "trade_success"
   else ret tt) ;;
  now <- sample (Date_now C) ;;
  ret (mkResult true (Some mockTxHash)
         (Some (estimatedProfitUsd o)) (Some (estimatedGasCostUsd o))
         ("Simulation successful - profit $"
          ++ toFixed (estimatedProfitUsd o) 2)
         None (Some (now - startTime)%float)).

(** ** Steps 7 to 11 of the real-trading branch, for a given member
    [buildSwapTransaction] of the aggregator *)
Definition tradeForReal
           (member : option SwapBuilder)
           (userId : string) (o : ArbitrageOpportunity)
           (config : BotConfig) (startTime : float)
  : M TradeExecutionResult :=
  console (console_log "💸 REAL TRADING MODE - Executing actual transaction") ;;
  storage_log userId (logRealExecution o) ;;
  loanAmount <- liftOutcome
    (ethers_parseUnits C (flashLoanAmount o) (decimals (tokenIn o))) ;;
  let dexAggregator := newDexAggregator (orStr (oneinchApiKey config) None) in
  buySwap <- callBuildSwapTransaction member dexAggregator
    (mkParams (address (tokenIn o)) (address (tokenOut o))
              (ofZ loanAmount) (privateKey config)) ;;
  sellSwap <- callBuildSwapTransaction member dexAggregator
    (mkParams (address (tokenOut o)) (address (tokenIn o))
              (swap_toAmount buySwap) (privateKey config)) ;;
  console (console_log "✅ Swap transactions built successfully") ;;
  storage_log userId (logSwapPreparation o buySwap sellSwap) ;;
  realTxHash <- randomTxHash ;;
  storage_tx userId (txPending o realTxHash buySwap) ;;
  storage_log userId (logTransactionSent o realTxHash) ;;
  telegram userId (telegramPending o realTxHash) "trade_pending" ;;
  now <- sample (Date_now C) ;;
  ret (mkResult true (Some realTxHash)
         (Some (estimatedProfitUsd o)) (Some (estimatedGasCostUsd o))
         ("Real trade executed - TX " ++ realTxHash)
         None (Some (now - startTime)%float)).

(** ** The [try] block of executeArbitrageTrade *)
Definition tradeBody
           (member : option SwapBuilder)
           (userId : string) (o : ArbitrageOpportunity)
           (isSimulation : bool) (startTime : float)
  : M TradeExecutionResult :=
  console (console_log (nl ++ "🚀 EXECUTING ARBITRAGE TRADE")) ;;
  console (console_log ("   Mode: " ++ (if isSimulation then "SIMULATION"
                                        else "REAL TRADING"))) ;;
  console (console_log ("   Pair: " ++ pairName o)) ;;
  console (console_log ("   Buy: " ++ buyDex o ++ " → Sell: " ++ sellDex o)) ;;
  console (console_log ("   Expected Profit: $"
                        ++ toFixed (estimatedProfitUsd o) 2)) ;;
  (* Step 1 *)
  storage_log userId (logValidation o isSimulation) ;;
  (* Step 2 *)
  found <- storage_config userId ;;
  match found with
  | None => throw errConfigNotFound
  | Some config =>
      (* Step 3 *)
      if negb isSimulation && negb (enableRealTrading config) then
        throw errTradingDisabled
      else
        (* Step 4 *)
        key <- sample (fun w =>
                 (orStr (privateKey config) (process_env_PRIVATE_KEY C w), w)) ;;
        (if negb isSimulation && negb (truthyOpt key) then
           storage_log userId logKeyMissing ;;
           throw errPrivateKey
         else ret tt) ;;
        storage_log userId (logKeyValidated config key) ;;
        (* Step 5 *)
        maticBalance <- checkMaticBalance userId config isSimulation key ;;
        (* Step 6 *)
        gasPriceGwei <- web3_gasPrice ;;
        let currentGasGwei := parseFloat gasPriceGwei in
        storage_log userId (logGas currentGasGwei config maticBalance) ;;
        (if (gasCeiling config <? currentGasGwei)%float then
           storage_log userId (logGasTooHigh currentGasGwei config) ;;
           throw (errGasTooHigh currentGasGwei config)
         else ret tt) ;;
        if isSimulation then simulate userId o config startTime
        else tradeForReal member userId o config startTime
  end.

(** ** The [catch] block of executeArbitrageTrade *)
Definition tradeFailure (userId : string) (o : ArbitrageOpportunity)
           (isSimulation : bool) (startTime : float) (e : JsError)
  : M TradeExecutionResult :=
  console (console_error ("❌ Trade execution failed: " ++ emessage e)) ;;
  storage_log userId (logFailure o isSimulation e) ;;
  storage_tx userId (txFailed o) ;;
  now <- sample (Date_now C) ;;
  ret (mkResult false None None None
         ("Trade execution failed: " ++ emessage e)
         (Some (emessage e)) (Some (now - startTime)%float)).

(** ** executeArbitrageTrade, for a given [buildSwapTransaction] member.
    The parameter [isSimulation] defaults to [true] at the call sites that
    omit it. *)
Definition executeArbitrageTradeWith
           (member : option SwapBuilder)
           (userId : string) (o : ArbitrageOpportunity)
           (isSimulation : bool) : M TradeExecutionResult :=
  startTime <- sample (Date_now C) ;;
  tryCatch (tradeBody member userId o isSimulation startTime)
           (tradeFailure userId o isSimulation startTime).

(** ** TradeExecutor.executeArbitrageTrade *)
Definition executeArbitrageTrade
  : string -> ArbitrageOpportunity -> bool -> M TradeExecutionResult :=
  executeArbitrageTradeWith DexAggregator_buildSwapTransaction.

(** ** TradeExecutor.validateOpportunity *)
Definition validateOpportunity (userId : string) (o : ArbitrageOpportunity)
  : M bool :=
  tryCatch
    (config <- storage_config userId ;;
     now <- sample (Date_now C) ;;
     let ageMs := (now - timestamp o)%float in
     if (30000 <? ageMs)%float then
       console (console_log ("Opportunity too old: " ++ toString ageMs
                             ++ "ms")) ;;
       ret false
     else if (netProfitPercent o
              <? parseFloat
                   (orStrDefault
                      (match config with
                       | Some c => minNetProfitPercent c
                       | None => None
                       end) "0.15"))%float then
       console (console_log ("Profit below threshold: "
                             ++ toString (netProfitPercent o) ++ "%")) ;;
       ret false
     else ret true)
    (fun e =>
       console (console_error ("Error validating opportunity: " ++ stack e)) ;;
       ret false).

(** Running a computation from a world, with an empty trace. *)
Definition run {A} (m : M A) (w : World) : Outcome A * State := m (w, []).

End Core.

Arguments Collaborators : clear implicits.
Arguments State : clear implicits.
Arguments M : clear implicits.
Arguments SwapBuilder : clear implicits.

(* ===================================================================== *)
(** * Observations on traces *)
(* ===================================================================== *)

(** The transaction records written: the [createArbitrageTransaction]
    calls that returned, in order. *)
Definition writtenBy (ev : Event) : list ArbitrageTransaction :=
  match call ev with
  | createArbitrageTransaction _ tx => if returned ev then [tx] else []
  | _ => []
  end.

Definition written (t : list Event) : list ArbitrageTransaction :=
  flat_map writtenBy t.

(** The notifications sent: the [sendTelegramMessage] calls that
    returned. *)
Definition notifiedBy (ev : Event) : list (string * string) :=
  match call ev with
  | sendTelegramMessage _ text category =>
      if returned ev then [(text, category)] else []
  | _ => []
  end.

Definition notified (t : list Event) : list (string * string) :=
  flat_map notifiedBy t.

(** Network queries, made or attempted. *)
Definition isNetworkQuery (ev : Event) : bool :=
  match call ev with
  | getNativeBalance _ _ => true
  | getGasPrice => true
  | _ => false
  end.

Definition isBalanceQuery (ev : Event) : bool :=
  match call ev with
  | getNativeBalance _ _ => true
  | _ => false
  end.

(** The audit-log entries written. *)
Definition loggedBy (ev : Event) : list ActivityLog :=
  match call ev with
  | createActivityLog _ entry => if returned ev then [entry] else []
  | _ => []
  end.

Definition logged (t : list Event) : list ActivityLog := flat_map loggedBy t.

(** The swap legs built: the requests of the [buildSwapTransaction] calls
    that returned. *)
Definition builtBy (ev : Event) : list QuoteParams :=
  match call ev with
  | buildSwapTransaction params => if returned ev then [params] else []
  | _ => []
  end.

Definition built (t : list Event) : list QuoteParams := flat_map builtBy t.

(** A record's status agrees with a result's flag. *)
Definition statusMatches (flag : bool) (s : TxStatus) : bool :=
  match s with
  | status_success | status_pending => flag
  | status_failed => negb flag
  end.

(* ===================================================================== *)
(** * Weakest preconditions for the execution monad *)
(* ===================================================================== *)

(** [wp m Q E s]: run from [s], [m] either returns [a] in a state
    satisfying [Q a] or throws [e] in a state satisfying [E e]. *)
Definition wp {World A} (m : M World A)
           (Q : A -> State World -> Prop)
           (E : JsError -> State World -> Prop)
           (s : State World) : Prop :=
  match m s with
  | (inr a, s') => Q a s'
  | (inl e, s') => E e s'
  end.

(* ===================================================================== *)
(** * Concrete collaborators, for running the program *)
(* ===================================================================== *)

Module Fixture.

(** A world that is a clock: every [Date.now()] advances it by 250 ms. *)
Definition World : Type := Z.

Definition clock (w : World) : float * World :=
  (decToFloat false (1700000000000 + w) 0, (w + 250)%Z).

(** Which collaborator calls throw. *)
Record Faults := mkFaults {
  logFails : LogLevel -> bool;
  recordFails : TxStatus -> bool;
  notifyFails : bool;
  balanceFails : bool
}.

Definition noFaults : Faults :=
  mkFaults (fun _ => false) (fun _ => false) false false.

Definition unavailable {A} (what : string) (fails : bool) (a : A)
           (w : World) : Outcome A * World :=
  if fails then (inl (newError (what ++ " unavailable")), w) else (inr a, w).

Definition collaborators (faults : Faults) (config : option BotConfig)
           (env : option string) (balance gasPrice : string)
  : Collaborators World :=
  {| storage_createActivityLog := fun _ entry =>
       unavailable "audit log" (logFails faults (level entry)) tt;
     storage_getBotConfig := fun _ w => (inr config, w);
     storage_createArbitrageTransaction := fun _ tx =>
       unavailable "transaction store" (recordFails faults (status tx)) tt;
     web3Provider_getNativeBalance := fun _ _ =>
       unavailable "rpc" (balanceFails faults) balance;
     web3Provider_getGasPrice := fun w => (inr gasPrice, w);
     telegram_sendTelegramMessage := fun _ _ _ =>
       unavailable "telegram" (notifyFails faults) tt;
     axios := fun _ _ _ w => (inl (newError "Network Error"), w);
     ethers_Wallet := fun key => inr ("0xWalletOf" ++ key);
     ethers_parseUnits := fun amount decimals =>
       inr (digitsValue 0 amount * 10 ^ decimals)%Z;
     process_env_PRIVATE_KEY := fun _ => env;
     Date_now := clock;
     Math_random := fun w => (0.5%float, w);
     Number_toString16 := fun _ => "0.8" |}.

Definition WMATIC : Token :=
  mkToken "WMATIC" "Wrapped MATIC" TOKENS.WMATIC 18.
Definition USDC : Token := mkToken "USDC" "USD Coin" TOKENS.USDC 6.

Definition opportunity (profit : float) : ArbitrageOpportunity :=
  mkOpportunity "opp-1" WMATIC USDC "QuickSwap" "1inch" "1000"
                profit 0.5 1.2 (decToFloat false 1700000000000 0).

Definition config (real : bool) (key : option string)
           (maxGas : option float) : BotConfig :=
  mkBotConfig real key "mainnet" maxGas (Some "0.3") (Some "10") None.

(** A well-formed private key: 32 bytes in hexadecimal. *)
Definition walletKey : string :=
  "0xac0974bec39a17e36ba4a6b4d238ff944bacb478cbed5efcae784d7bf4f2ff80".

End Fixture.

(* ===================================================================== *)
(** * Specification-side definitions *)
(* ===================================================================== *)

(** The pairs of the synthetic pricing table, as the specification lists
    them: native or wrapped gas token and stablecoin, stablecoin and
    wrapped ether. *)
Definition knownPairs : list (string * string) :=
  [ (TOKENS.MATIC, TOKENS.USDC); (TOKENS.USDC, TOKENS.MATIC);
    (TOKENS.WMATIC, TOKENS.USDC); (TOKENS.USDC, TOKENS.WETH);
    (TOKENS.WETH, TOKENS.USDC) ].

Definition inTable (params : QuoteParams) : bool :=
  existsb (fun p => (src params =? fst p) && (dst params =? snd p))
          knownPairs.

(** The validator's two checks, in the specification's words: the age
    does not exceed the 30 000 ms window, and the net profit is not below
    the configured minimum (0.15 when unset). *)
Definition minimumNetProfit (config : option BotConfig) : float :=
  match config with
  | Some c =>
      match minNetProfitPercent c with
      | Some m => if truthyStr m then parseFloat m else 0.15%float
      | None => 0.15%float
      end
  | None => 0.15%float
  end.

Definition tooOld (now : float) (o : ArbitrageOpportunity) : bool :=
  (30000 <? now - timestamp o)%float.

Definition belowMinimum (config : option BotConfig)
           (o : ArbitrageOpportunity) : bool :=
  (netProfitPercent o <? minimumNetProfit config)%float.

(** Calls whose failure the try block does not turn into a record of its
    own: audit-log writes and notifications. *)
Definition isLogOrNotify (c : Call) : bool :=
  match c with
  | createActivityLog _ _ => true
  | sendTelegramMessage _ _ _ => true
  | _ => false
  end.

(** The status of the record a completed try block writes. *)
Definition completedStatus (isSimulation : bool) : TxStatus :=
  if isSimulation then status_success else status_pending.

(** The events of the failure path, when both of its writes return. *)
Definition failureTrace (userId : string) (o : ArbitrageOpportunity)
           (isSimulation : bool) (e : JsError) : list Event :=
  [ mkEvent (console_error ("❌ Trade execution failed: " ++ emessage e)) true;
    mkEvent (createActivityLog userId (logFailure o isSimulation e)) true;
    mkEvent (createArbitrageTransaction userId (txFailed o)) true ].

(** The failure path stopped at a write of its own that threw. *)
Definition failureAborted (userId : string) (o : ArbitrageOpportunity)
           (isSimulation : bool) (e : JsError) : list (list Event) :=
  [ [ mkEvent (console_error ("❌ Trade execution failed: " ++ emessage e)) true;
      mkEvent (createActivityLog userId (logFailure o isSimulation e)) false ];
    [ mkEvent (console_error ("❌ Trade execution failed: " ++ emessage e)) true;
      mkEvent (createActivityLog userId (logFailure o isSimulation e)) true;
      mkEvent (createArbitrageTransaction userId (txFailed o)) false ] ].

(** The result the failure path returns. *)
Definition failedResult (e : JsError) (elapsed : float)
  : TradeExecutionResult :=
  mkResult false None None None
           ("Trade execution failed: " ++ emessage e)
           (Some (emessage e)) (Some elapsed).

(** The same configuration with another maximum gas price. *)
Definition withMaxGasPriceGwei (c : BotConfig) (m : option float)
  : BotConfig :=
  mkBotConfig (enableRealTrading c) (privateKey c) (networkMode c) m
              (minNetProfitPercent c) (telegramProfitThresholdUsd c)
              (oneinchApiKey c).

(** [parseFloat(config.telegramProfitThresholdUsd?.toString() || '10')] *)
Definition notifyThreshold (config : BotConfig) : float :=
  parseFloat (orStrDefault (telegramProfitThresholdUsd config) "10").

(** Collaborators that answer: the stores and the notifier return on every
    call, the configuration store yields [config] and the network the gas
    price [gasPriceGwei]. *)
Record Reliable {World} (C : Collaborators World) (userId : string)
       (config : BotConfig) (gasPriceGwei : string) : Prop := {
  audit_ok : forall u entry w,
    fst (storage_createActivityLog C u entry w) = inr tt;
  config_ok : forall w,
    fst (storage_getBotConfig C userId w) = inr (Some config);
  gas_ok : forall w, fst (web3Provider_getGasPrice C w) = inr gasPriceGwei;
  record_ok : forall u tx w,
    fst (storage_createArbitrageTransaction C u tx w) = inr tt;
  notify_ok : forall u text category w,
    fst (telegram_sendTelegramMessage C u text category w) = inr tt
}.

(* ===================================================================== *)
(** * DexAggregator: prices, swaps and opportunities *)
(* ===================================================================== *)


Record TokenPrice := mkPrice {
  price_address : string;
  price_symbol : string;
  priceUsd : float;
  priceChange24h : float
}.

(** What [getTokenPrices] reads of an entry of the live token list: its
    [price] and [priceChange24h] properties, each present or not. *)
Record TokenData := mkTokenData {
  data_price : option string;
  data_priceChange24h : option string
}.

(** The live token list as [getTokenPrices] observes it: for a requested
    address, the value of [tokensData[address.toLowerCase()]] when it is
    truthy.  ([tokensData] is [response.data.tokens || {}].) *)
Definition TokenList : Type := string -> option TokenData.



(** The entries of the live token list that were asked for, in the order
    of the request: the [for] loop of the live path. *)
Definition livePrices (tokensData : TokenList) (tokenAddresses : list string)
  : list TokenPrice :=
  flat_map
    (fun address =>
       match tokensData address with
       | Some tokenData =>
           let tokenInfo := getTokenInfo address in
           [ mkPrice address (symbol tokenInfo)
               (parseFloat (orStrDefault (data_price tokenData) "0"))
               (parseFloat (orStrDefault (data_priceChange24h tokenData) "0")) ]
       | None => []
       end)
    tokenAddresses.

Section Aggregator.

Context {World : Type} (C : Collaborators World).

(** [axios.get(`${INCH_API_BASE}/${POLYGON_CHAIN_ID}/tokens`, { headers })]:
    the request for the token list, by url and bearer token. *)
Variable axios_tokens : string -> string -> World -> Outcome TokenList * World.

Notation "x <- m ;; k" := (bind m (fun x => k))
  (at level 61, m at next level, right associativity).
Notation "m ;; k" := (bind m (fun _ => k))
  (at level 61, right associativity).

(** A call that may throw and that the trace does not record. *)
Definition request {A} (f : World -> Outcome A * World) : M World A :=
  fun s => let (w, t) := s in let (r, w') := f w in (r, (w', t)).

(** ** DexAggregator.getTokenPrices *)

(** Two draws, the first for the price and the second for the change. *)
Definition draw2 (price change : float -> float) : M World (float * float) :=
  r1 <- sample (Math_random C) ;;
  r2 <- sample (Math_random C) ;;
  ret (price r1, change r2).

(** The [switch] of the demo path. *)
Definition simulatePrice (address : string) : M World (float * float) :=
  let key := toLowerCase address in
  if (key =? toLowerCase TOKENS.MATIC) || (key =? toLowerCase TOKENS.WMATIC)
  then draw2 (fun r => 0.7 + r * 0.05)%float (fun r => -2.5 + r * 5)%float
  else if (key =? toLowerCase TOKENS.USDC) || (key =? toLowerCase TOKENS.USDT)
          || (key =? toLowerCase TOKENS.DAI)
  then draw2 (fun r => 1.0 + r * 0.01)%float (fun r => -0.5 + r)%float
  else if key =? toLowerCase TOKENS.WETH
  then draw2 (fun r => 2500 + r * 100)%float (fun r => -3 + r * 6)%float
  else if key =? toLowerCase TOKENS.WBTC
  then draw2 (fun r => 45000 + r * 1000)%float (fun r => -2 + r * 4)%float
  else draw2 (fun r => r * 10)%float (fun r => -5 + r * 10)%float.

(** The [for] loop of the demo path. *)
Fixpoint demoPrices (tokenAddresses : list string)
  : M World (list TokenPrice) :=
  match tokenAddresses with
  | [] => ret []
  | address :: rest =>
      let tokenInfo := getTokenInfo address in
      drawn <- simulatePrice address ;;
      let priceUsd := fst drawn in
      let priceChange24h := snd drawn in
      prices <- demoPrices rest ;;
      ret (mkPrice address (symbol tokenInfo)
                   (parseFloat (toFixed priceUsd 2))
                   (parseFloat (toFixed priceChange24h 2)) :: prices)
  end.

Definition getTokenPrices (this : DexAggregator)
           (tokenAddresses : list string) : M World (list TokenPrice) :=
  live <-
    match apiKey this with
    | Some key =>
        if truthyStr key then
          tryCatch
            (tokensData <- request
               (axios_tokens
                  (INCH_API_BASE ++ "/" ++ POLYGON_CHAIN_ID ++ "/tokens") key) ;;
             let prices := livePrices tokensData tokenAddresses in
             ret (match prices with
                  | [] => None
                  | _ => Some prices
                  end))
            (fun error =>
               console (console_error
                 ("1inch API error, falling back to demo mode: "
                  ++ emessage error)) ;;
               ret None)
        else ret None
    | None => ret None
    end ;;
  match live with
  | Some prices => ret prices
  | None => demoPrices tokenAddresses
  end.

(** ** DexAggregator.executeSwap *)



(** ** DexAggregator.getArbitrageOpportunities *)



End Aggregator.

(** The same opportunity with another timestamp. *)
Definition withTimestamp (o : ArbitrageOpportunity) (ts : float)
  : ArbitrageOpportunity :=
  mkOpportunity (id o) (tokenIn o) (tokenOut o) (buyDex o) (sellDex o)
                (flashLoanAmount o) (estimatedProfitUsd o)
                (estimatedGasCostUsd o) (netProfitPercent o) ts.

(** The urls of the two live requests. *)
Definition quoteUrl : string :=
  INCH_API_BASE ++ "/" ++ POLYGON_CHAIN_ID ++ "/quote".

Definition tokensUrl : string :=
  INCH_API_BASE ++ "/" ++ POLYGON_CHAIN_ID ++ "/tokens".

(** A request counted in a trace. *)
Definition isQuoteRequest (ev : Event) : bool :=
  match call ev with
  | axios_get _ _ _ => true
  | _ => false
  end.

(** Whether the live token list has an entry for an address. *)
Definition isListed (tokensData : TokenList) (address : string) : bool :=
  match tokensData address with Some _ => true | None => false end.

(** A price entry carries the registry's symbol for its address. *)
Definition wellFormed (p : TokenPrice) : Prop :=
  price_symbol p = symbol (getTokenInfo (price_address p)).

(** Concrete collaborators with a live service that answers. *)
Module LiveFixture.

(** [x.toString(16)] for the integers 0 to 15. *)
Definition hexDigit (x : float) : string :=
  match Prim2SF x with
  | S754_finite false m e =>
      substring (Z.to_nat (Zpos m / 2 ^ (- e))) 1 "0123456789abcdef"
  | _ => "0"
  end.

Definition collaborators (data : QuoteResponse)
  : Collaborators Fixture.World :=
  {| storage_createActivityLog := fun _ _ w => (inr tt, w);
     storage_getBotConfig := fun _ w => (inr None, w);
     storage_createArbitrageTransaction := fun _ _ w => (inr tt, w);
     web3Provider_getNativeBalance := fun _ _ w => (inr "0", w);
     web3Provider_getGasPrice := fun w => (inr "30", w);
     telegram_sendTelegramMessage := fun _ _ _ w => (inr tt, w);
     axios := fun _ _ _ w => (inr data, w);
     ethers_Wallet := fun key => inr ("0xWalletOf" ++ key);
     ethers_parseUnits := fun amount decimals =>
       inr (digitsValue 0 amount * 10 ^ decimals)%Z;
     process_env_PRIVATE_KEY := fun _ => None;
     Date_now := Fixture.clock;
     Math_random := fun w => (0.5%float, w);
     Number_toString16 := hexDigit |}.

(** A token list that knows USDC only, without a 24 h change. *)
Definition tokenList : TokenList :=
  fun address =>
    if toLowerCase address =? toLowerCase TOKENS.USDC
    then Some (mkTokenData (Some "1.0002") None)
    else None.

Definition axios_tokens (_ _ : string) (w : Fixture.World)
  : Outcome TokenList * Fixture.World :=
  (inr tokenList, w).

End LiveFixture.

(* ===================================================================== *)
(** * Observations on a run of the pipeline *)
(* ===================================================================== *)

(** What a result and the trace it comes with say about each other. *)
Definition recordAgrees (o : ArbitrageOpportunity)
           (r : TradeExecutionResult) (t : list Event) : Prop :=
  exists x,
    written t = [x]
    /\ txHash r = Some (tx_txHash x)
    /\ profitUsd r = Some (estimatedProfitUsd o)
    /\ gasCostUsd r = Some (estimatedGasCostUsd o)
    /\ tx_amountIn x = flashLoanAmount o
    /\ tx_profitUsd x = toString (estimatedProfitUsd o)
    /\ tx_gasCostUsd x = toString (estimatedGasCostUsd o)
    /\ tx_netProfitUsd x
       = toString (estimatedProfitUsd o - estimatedGasCostUsd o)
    /\ dexPath x = buyDex o ++ " → " ++ sellDex o.

(** The credential a call resolves in world [w]: the configured key or,
    when that is empty or absent, the environment's. *)
Definition resolvedKey {World} (C : Collaborators World)
           (config : BotConfig) (w : World) : option string :=
  orStr (privateKey config) (process_env_PRIVATE_KEY C w).

(** The checks behind a success, for the configuration the store
    returned: the network answered a gas price query with a price that was
    logged and is not above the configuration's ceiling; in real mode the
    configuration enables real trading and the credential resolved, and
    logged as validated, is not empty. *)
Definition checksPassed {World} (C : Collaborators World)
           (config : BotConfig) (isSimulation : bool) (t : list Event)
  : Prop :=
  (exists w0 gasPriceGwei maticBalance,
     fst (web3Provider_getGasPrice C w0) = inr gasPriceGwei
     /\ In (mkEvent getGasPrice true) t
     /\ In (logGas (parseFloat gasPriceGwei) config maticBalance) (logged t)
     /\ (gasCeiling config <? parseFloat gasPriceGwei)%float = false)
  /\ (isSimulation = false ->
      enableRealTrading config = true
      /\ exists w0,
           truthyOpt (resolvedKey C config w0) = true
           /\ In (logKeyValidated config (resolvedKey C config w0))
                 (logged t)).

(** A swap leg, built or attempted. *)
Definition isSwapBuild (ev : Event) : bool :=
  match call ev with
  | buildSwapTransaction _ => true
  | _ => false
  end.

(** The network is behind the key validation, for the configuration
    the store returned: a trace with a network query has the entry of the
    validated key, resolved in some world; in real mode the configuration
    enables real trading and that key is not empty. *)
Definition keyValidatedFirst {World} (C : Collaborators World)
           (config : BotConfig) (isSimulation : bool) (t : list Event)
  : Prop :=
  existsb isNetworkQuery t = true ->
  exists w0,
    In (logKeyValidated config (resolvedKey C config w0)) (logged t)
    /\ (isSimulation = false ->
        enableRealTrading config = true
        /\ truthyOpt (resolvedKey C config w0) = true).

(** A swap leg is behind the gas check: a trace with a swap build belongs
    to a real-mode call and has a gas price query that returned. *)
Definition buildAfterGasCheck (isSimulation : bool) (t : list Event) : Prop :=
  existsb isSwapBuild t = true ->
  isSimulation = false /\ In (mkEvent getGasPrice true) t.

(** The chain a configuration selects: Polygon mainnet, or the Amoy
    testnet for every other network mode. *)
Definition chainIdOf (config : BotConfig) : Z :=
  if networkMode config =? "mainnet" then 137%Z else 80002%Z.

(* ===================================================================== *)
(** * The built-ins on known values *)
(* ===================================================================== *)

Example parseFloat_decimal : parseFloat "0.15" = 0.15%float.
Proof. vm_compute. reflexivity. Qed.

Example parseFloat_prefix : parseFloat "  12.5abc" = 12.5%float.
Proof. vm_compute. reflexivity. Qed.

Example parseFloat_not_a_number : parseFloat "abc" = nan.
Proof. vm_compute. reflexivity. Qed.

Example toString_shortest : toString (0.1 + 0.2) = "0.30000000000000004".
Proof. vm_compute. reflexivity. Qed.

Example toString_exponent : toString 1e21 = "1e+21".
Proof. vm_compute. reflexivity. Qed.

Example toFixed_below_half : toFixed 1.005 2 = "1.00".
Proof. vm_compute. reflexivity. Qed.

Example toFixed_half_up : toFixed 0.25 1 = "0.3".
Proof. vm_compute. reflexivity. Qed.

Example demo_rate : toFixed (parseFloat "3" * 0.7) 6 = "2.100000".
Proof. vm_compute. reflexivity. Qed.

(* ===================================================================== *)
(** * Rules of the weakest-precondition calculus *)
(* ===================================================================== *)

Section Rules.

Context {World : Type}.
Implicit Types (s : State World) (E : JsError -> State World -> Prop).

Lemma wp_ret {A} (a : A) (Q : A -> State World -> Prop) E s :
  Q a s -> wp (ret a) Q E s.
Proof. exact (fun H => H). Qed.

Lemma wp_throw {A} (e : JsError) (Q : A -> State World -> Prop) E s :
  E e s -> wp (throw e) Q E s.
Proof. exact (fun H => H). Qed.

Lemma wp_bind {A B} (m : M World A) (k : A -> M World B)
      (Q : B -> State World -> Prop) E s :
  wp m (fun a s' => wp (k a) Q E s') E s -> wp (bind m k) Q E s.
Proof.
  unfold wp, bind. destruct (m s) as [[e | a] s']; auto.
Qed.

Lemma wp_attempt {A} (m : M World A)
      (Q : Outcome A -> State World -> Prop) E s :
  wp m (fun a => Q (inr a)) (fun e => Q (inl e)) s -> wp (attempt m) Q E s.
Proof.
  unfold wp, attempt. destruct (m s) as [[e | a] s']; auto.
Qed.

Lemma wp_tryCatch {A} (m : M World A) (h : JsError -> M World A)
      (Q : A -> State World -> Prop) E s :
  wp m Q (fun e s' => wp (h e) Q E s') s -> wp (tryCatch m h) Q E s.
Proof.
  intros H. unfold tryCatch. apply wp_bind, wp_attempt.
  unfold wp in *. destruct (m s) as [[e | a] s']; auto.
Qed.

Lemma wp_liftOutcome {A} (r : Outcome A) (Q : A -> State World -> Prop) E s :
  match r with inr a => Q a s | inl e => E e s end ->
  wp (liftOutcome r) Q E s.
Proof. destruct r; auto. Qed.

Lemma wp_invoke {A} (c : Call) (f : World -> Outcome A * World)
      (Q : A -> State World -> Prop) E w t :
  (forall r w', f w = (r, w') ->
     match r with
     | inr a => Q a (w', t ++ [mkEvent c true])%list
     | inl e => E e (w', t ++ [mkEvent c false])%list
     end) ->
  wp (invoke c f) Q E (w, t).
Proof.
  intros H. unfold wp, invoke. destruct (f w) as [r w'] eqn:Hf.
  specialize (H r w' eq_refl). destruct r; exact H.
Qed.

Lemma wp_console (c : Call) (Q : unit -> State World -> Prop) E w t :
  Q tt (w, t ++ [mkEvent c true])%list -> wp (console c) Q E (w, t).
Proof. exact (fun H => H). Qed.

Lemma wp_sample {A} (f : World -> A * World)
      (Q : A -> State World -> Prop) E w t :
  (forall a w', f w = (a, w') -> Q a (w', t)) -> wp (sample f) Q E (w, t).
Proof.
  intros H. unfold wp, sample. destruct (f w) as [a w'] eqn:Hf. auto.
Qed.

Lemma wp_mono {A} (m : M World A) (Q Q' : A -> State World -> Prop)
      (E E' : JsError -> State World -> Prop) s :
  wp m Q E s ->
  (forall a s', Q a s' -> Q' a s') ->
  (forall e s', E e s' -> E' e s') ->
  wp m Q' E' s.
Proof.
  unfold wp. destruct (m s) as [[e | a] s']; auto.
Qed.

End Rules.

(** ** Trace observations of an extended trace *)

Lemma written_snoc t ev : written (t ++ [ev]) = (written t ++ writtenBy ev)%list.
Proof.
  unfold written. rewrite flat_map_app. simpl. now rewrite app_nil_r.
Qed.


(* ===================================================================== *)
(** * The quote source in demo mode *)
(* ===================================================================== *)

Lemma demoToAmount_outside_table params :
  inTable params = false -> demoToAmount params = amount params.
Proof.
  unfold inTable, demoToAmount, knownPairs. cbn [existsb fst snd].
  intros H.
  repeat (apply orb_false_elim in H; destruct H as [-> H]).
  reflexivity.
Qed.

Lemma demoToAmount_matic_usdc params :
  src params = TOKENS.MATIC -> dst params = TOKENS.USDC ->
  demoToAmount params = toFixed (parseFloat (amount params) * 0.7) 6.
Proof.
  intros Hs Hd. unfold demoToAmount. rewrite Hs, Hd. reflexivity.
Qed.

(** C9.  With no API key configured, [getQuote] makes no call and returns
    a quote whose output amount is a function of the request alone: for
    MATIC to USDC it is the input amount times 0.7 (a binary64 product,
    printed with six decimals), and for a pair outside the table it is the
    input amount itself. *)
Theorem getQuote_demo_mode {World} (C : Collaborators World)
        (key : option string) (params : QuoteParams) (w : World) :
  truthyOpt key = false ->
  exists q w',
    run (getQuote C (newDexAggregator key) params) w = (inr q, (w', []))
    /\ fromAmount q = amount params
    /\ toAmount q = Some (demoToAmount params)
    /\ (src params = TOKENS.MATIC -> dst params = TOKENS.USDC ->
        toAmount q = Some (toFixed (parseFloat (amount params) * 0.7) 6))
    /\ (inTable params = false -> toAmount q = Some (amount params)).
Proof.
  intros Hkey.
  assert (Hnone : apiKey (newDexAggregator key) = None).
  { unfold newDexAggregator, orStr. cbn [apiKey].
    destruct key as [k |]; [| reflexivity].
    cbn [truthyOpt] in Hkey. now rewrite Hkey. }
  unfold run, getQuote. rewrite Hnone.
  unfold bind, ret, sample.
  destruct (Math_random C w) as [r w'] eqn:Hr.
  eexists _, w'. split; [reflexivity |]. cbn [fromAmount toAmount].
  repeat split.
  - intros Hs Hd. now rewrite demoToAmount_matic_usdc.
  - intros Ht. now rewrite demoToAmount_outside_table.
Qed.

Lemma getQuote_demo_mode_witness :
  truthyOpt None = false
  /\ exists q w',
       run (getQuote (Fixture.collaborators Fixture.noFaults None None "0" "0")
                     (newDexAggregator None)
                     (mkParams TOKENS.MATIC TOKENS.USDC "1000000" None)) 0%Z
       = (inr q, (w', []))
       /\ toAmount q = Some "700000.000000".
Proof.
  split; [reflexivity |].
  destruct (getQuote_demo_mode (Fixture.collaborators Fixture.noFaults None None "0" "0")
              None (mkParams TOKENS.MATIC TOKENS.USDC "1000000" None) 0%Z
              eq_refl)
    as (q & w' & Hrun & _ & _ & Hmatic & _).
  exists q, w'. split; [exact Hrun |].
  rewrite (Hmatic eq_refl eq_refl). vm_compute. reflexivity.
Defined.

(* ===================================================================== *)
(** * The opportunity validator *)
(* ===================================================================== *)

Lemma minimumNetProfit_unset config :
  (config = None \/ exists c, config = Some c /\ minNetProfitPercent c = None) ->
  minimumNetProfit config = 0.15%float.
Proof.
  intros [-> | (c & -> & Hc)]; cbn; [| rewrite Hc]; reflexivity.
Qed.

(** The minimum the source computes,
    [parseFloat(config?.minNetProfitPercent?.toString() || '0.15')], is the
    specification's. *)
Lemma minimumNetProfit_source config :
  parseFloat
    (orStrDefault
       (match config with
        | Some c => minNetProfitPercent c
        | None => None
        end) "0.15") = minimumNetProfit config.
Proof.
  unfold minimumNetProfit, orStrDefault.
  destruct config as [c |]; [| vm_compute; reflexivity].
  destruct (minNetProfitPercent c) as [m |]; [| vm_compute; reflexivity].
  destruct (truthyStr m); [reflexivity | vm_compute; reflexivity].
Qed.

(** C8.  [validateOpportunity] always returns a boolean, whatever the
    configuration store does.  When the store throws the answer is false;
    otherwise, with [now] the clock's reading after the configuration was
    loaded: false when the age exceeds 30 000 ms, whatever the profit;
    false when the age is within the window and the net profit is below
    the minimum; true when neither is the case.  The minimum is 0.15 when
    none is configured. *)
Theorem validateOpportunity_decides {World} (C : Collaborators World)
        (userId : string) (o : ArbitrageOpportunity) (w : World) :
  exists b s',
    run (validateOpportunity C userId o) w = (inr b, s')
    /\ match storage_getBotConfig C userId w with
       | (inl _, _) => b = false
       | (inr config, w1) =>
           let now := fst (Date_now C w1) in
           (tooOld now o = true -> b = false)
           /\ (tooOld now o = false -> belowMinimum config o = true ->
               b = false)
           /\ (tooOld now o = false -> belowMinimum config o = false ->
               b = true)
           /\ (config = None
               \/ (exists c, config = Some c /\ minNetProfitPercent c = None)
               -> minimumNetProfit config = 0.15%float)
       end.
Proof.
  unfold run, validateOpportunity, tryCatch, attempt, bind, storage_config,
    invoke, sample, console, ret, tooOld, belowMinimum.
  destruct (storage_getBotConfig C userId w) as [[e | config] w1].
  - eexists _, _. split; reflexivity.
  - destruct (Date_now C w1) as [now w2]. cbn [fst].
    rewrite minimumNetProfit_source.
    destruct (30000 <? now - timestamp o)%float.
    + eexists _, _. split; [reflexivity |].
      repeat split; try congruence. apply minimumNetProfit_unset.
    + destruct (netProfitPercent o <? minimumNetProfit config)%float.
      * eexists _, _. split; [reflexivity |].
        repeat split; try congruence. apply minimumNetProfit_unset.
      * eexists _, _. split; [reflexivity |].
        repeat split; try congruence. apply minimumNetProfit_unset.
Qed.

(* ===================================================================== *)
(** * The execution pipeline, for every behaviour of the collaborators *)
(* ===================================================================== *)

Ltac wp_call :=
  apply wp_invoke;
  let r := fresh "r" in let w' := fresh "w" in let H := fresh "Hcall" in
  intros r w' H; destruct r as [? | ?]; clear H.

Ltac wp_unfold :=
  unfold randomTxHash, balanceHandler, callBuildSwapTransaction;
  unfold storage_log, storage_config, storage_tx, web3_balance, web3_gasPrice,
    telegram.

Ltac wp_step :=
  cbv beta iota;
  lazymatch goal with
  | |- wp (bind _ _) _ _ _ => apply wp_bind
  | |- wp (ret _) _ _ _ => apply wp_ret
  | |- wp (throw _) _ _ _ => apply wp_throw
  | |- wp (console _) _ _ _ => apply wp_console
  | |- wp (invoke _ _) _ _ _ => wp_call
  | |- wp (sample _) _ _ _ => apply wp_sample; intros ? ? _
  | |- wp (attempt _) _ _ _ => apply wp_attempt
  | |- wp (tryCatch _ _) _ _ _ => apply wp_tryCatch
  | |- wp (liftOutcome ?r) _ _ _ => apply wp_liftOutcome; destruct r
  | |- wp (if ?b then _ else _) _ _ _ => destruct b
  | |- wp (match ?x with _ => _ end) _ _ _ => destruct x
  end.

Ltac trace_simpl :=
  cbn [snd fst written notified logged flat_map writtenBy notifiedBy loggedBy
       call returned app status existsb isNetworkQuery isBalanceQuery
       isLogOrNotify orb negb andb].

Lemma written_app t1 t2 : written (t1 ++ t2) = (written t1 ++ written t2)%list.
Proof. apply flat_map_app. Qed.

Section Pipeline.

Context {World : Type} (C : Collaborators World).
Variables (member : option (SwapBuilder World)) (userId : string)
          (o : ArbitrageOpportunity) (isSimulation : bool).

(** The failure path: it returns the failed result after its three events,
    or stops at the write that threw. *)
Lemma tradeFailure_spec startTime e w t :
  wp (tradeFailure C userId o isSimulation startTime e)
     (fun r s' =>
        snd s' = (t ++ failureTrace userId o isSimulation e)%list
        /\ exists elapsed, r = failedResult e elapsed)
     (fun _ s' =>
        exists ft, In ft (failureAborted userId o isSimulation e)
                   /\ snd s' = (t ++ ft)%list)
     (w, t).
Proof.
  unfold tradeFailure, failureTrace, failureAborted, failedResult. wp_unfold.
  repeat wp_step; cbn [snd].
  - eexists. split; [left; reflexivity |]. now rewrite <- !app_assoc.
  - eexists. split; [right; left; reflexivity |]. now rewrite <- !app_assoc.
  - split; [now rewrite <- !app_assoc | eexists; reflexivity].
Qed.

(** The try block: a result it returns is a success, with exactly one
    record written; when it throws, either nothing was written or one
    record was, and then the call that threw is a later audit-log write or
    notification. *)
Lemma tradeBody_spec startTime w :
  wp (tradeBody C member userId o isSimulation startTime)
     (fun r s' =>
        success r = true /\ error r = None
        /\ exists x, written (snd s') = [x]
                     /\ status x = completedStatus isSimulation)
     (fun _ s' =>
        written (snd s') = []
        \/ exists x t0 c,
             snd s' = (t0 ++ [mkEvent c false])%list
             /\ isLogOrNotify c = true
             /\ written t0 = [x]
             /\ status x = completedStatus isSimulation)
     (w, []).
Proof.
  unfold tradeBody, simulate, tradeForReal, checkMaticBalance, completedStatus.
  wp_unfold.
  destruct isSimulation; cbn [negb andb]; [| destruct member].
  all: repeat wp_step.
  all: try (left; reflexivity).
  all: try (right; eexists _, _, _; cbn [snd];
            split; [reflexivity | split; [reflexivity | split; reflexivity]]).
  all: split; [reflexivity | split; [reflexivity |]];
    eexists; trace_simpl; split; reflexivity.
Qed.

Lemma written_failureTrace e :
  written (failureTrace userId o isSimulation e) = [txFailed o].
Proof. reflexivity. Qed.

Lemma written_failureAborted e ft :
  In ft (failureAborted userId o isSimulation e) -> written ft = [].
Proof. intros [<- | [<- | []]]; reflexivity. Qed.

(** C1 (as amended).  Let the try block run from the clock's first
    reading.  When it returns, the call returns that result, a success
    with no error.  When any of its steps throws [e], the failure is
    caught: the call returns a result with [success = false] whose error
    is [e]'s message, after the failure path's log entry and failed
    record; the call throws outward only when one of these two writes of
    the failure path throws. *)
Theorem executeArbitrageTrade_catches (w : World) :
  let (startTime, w0) := Date_now C w in
  match tradeBody C member userId o isSimulation startTime (w0, []) with
  | (inr r, s1) =>
      run (executeArbitrageTradeWith C member userId o isSimulation) w
      = (inr r, s1)
      /\ success r = true /\ error r = None
  | (inl e, (_, t1)) =>
      match run (executeArbitrageTradeWith C member userId o isSimulation) w
      with
      | (inr r, (_, t)) =>
          success r = false
          /\ error r = Some (emessage e)
          /\ message r = "Trade execution failed: " ++ emessage e
          /\ t = (t1 ++ failureTrace userId o isSimulation e)%list
      | (inl _, (_, t)) =>
          exists ft, In ft (failureAborted userId o isSimulation e)
                     /\ t = (t1 ++ ft)%list
      end
  end.
Proof.
  destruct (Date_now C w) as [startTime w0] eqn:Hnow.
  assert (Hrun :
    run (executeArbitrageTradeWith C member userId o isSimulation) w
    = match tradeBody C member userId o isSimulation startTime (w0, []) with
      | (inr r, s1) => (inr r, s1)
      | (inl e, s1) => tradeFailure C userId o isSimulation startTime e s1
      end).
  { unfold run, executeArbitrageTradeWith, tryCatch, attempt, bind, sample.
    rewrite Hnow.
    now destruct (tradeBody C member userId o isSimulation startTime (w0, []))
      as [[e | r] s1]. }
  rewrite Hrun. clear Hrun.
  pose proof (tradeBody_spec startTime w0) as Hbody. unfold wp in Hbody.
  destruct (tradeBody C member userId o isSimulation startTime (w0, []))
    as [[e | r] [w1 t1]].
  - pose proof (tradeFailure_spec startTime e w1 t1) as Hfail.
    unfold wp in Hfail.
    destruct (tradeFailure C userId o isSimulation startTime e (w1, t1))
      as [[e' | r] [w2 t2]]; cbn [snd] in Hfail.
    + exact Hfail.
    + destruct Hfail as (-> & elapsed & ->). repeat split.
  - split; [reflexivity |]. destruct Hbody as (Hs & He & _). now split.
Qed.

(** C4 (as amended).  Whenever the call returns, the last record written
    agrees with the returned flag.  It is the only record, unless an
    audit-log write or a notification threw after the try block had
    written its own record: then that record is followed by the failed
    one and the flag is false.  A pending record is written in real mode
    only.  When the call throws outward, no failed record was written and
    at most one record was. *)
Theorem records_written (w : World) :
  match run (executeArbitrageTradeWith C member userId o isSimulation) w with
  | (inr r, (_, t)) =>
      (exists x,
         written t = [x]
         /\ statusMatches (success r) (status x) = true
         /\ (status x = status_pending ->
             isSimulation = false /\ success r = true))
      \/ (success r = false
          /\ exists x t0 c t1,
               t = ((t0 ++ [mkEvent c false]) ++ t1)%list
               /\ isLogOrNotify c = true
               /\ written t0 = [x]
               /\ status x = completedStatus isSimulation
               /\ written t = [x; txFailed o])
  | (inl _, (_, t)) =>
      (length (written t) <= 1)%nat
      /\ forall x, In x (written t) -> status x <> status_failed
  end.
Proof.
  assert (Hwp :
    wp (executeArbitrageTradeWith C member userId o isSimulation)
       (fun r s' =>
          (exists x,
             written (snd s') = [x]
             /\ statusMatches (success r) (status x) = true
             /\ (status x = status_pending ->
                 isSimulation = false /\ success r = true))
          \/ (success r = false
              /\ exists x t0 c t1,
                   snd s' = ((t0 ++ [mkEvent c false]) ++ t1)%list
                   /\ isLogOrNotify c = true
                   /\ written t0 = [x]
                   /\ status x = completedStatus isSimulation
                   /\ written (snd s') = [x; txFailed o]))
       (fun _ s' =>
          (length (written (snd s')) <= 1)%nat
          /\ forall x, In x (written (snd s')) -> status x <> status_failed)
       (w, [])).
  { unfold executeArbitrageTradeWith.
    apply wp_bind, wp_sample. intros startTime w0 _.
    apply wp_tryCatch.
    eapply wp_mono; [apply tradeBody_spec | |].
    - intros r s' (Hs & _ & x & Hw & Hst). left. exists x.
      rewrite Hs, Hst. unfold completedStatus.
      destruct isSimulation; repeat split; auto; discriminate.
    - intros e [w1 t1] Hbody. cbn [snd] in Hbody.
      eapply wp_mono; [apply tradeFailure_spec | |].
      + intros r [w2 t2] (Ht & elapsed & ->). cbn [snd] in *. subst t2.
        rewrite written_app, written_failureTrace.
        destruct Hbody as [Hnil | (x & t0 & c & -> & Hc & Hw & Hst)].
        * left. exists (txFailed o). rewrite Hnil.
          repeat split; discriminate.
        * right. split; [reflexivity |].
          exists x, t0, c, (failureTrace userId o isSimulation e).
          repeat split; auto.
          rewrite written_snoc, Hw.
          destruct c; try discriminate; reflexivity.
      + intros e' [w2 t2] (ft & Hin & Ht). cbn [snd] in *. subst t2.
        rewrite written_app, (written_failureAborted e ft Hin), app_nil_r.
        destruct Hbody as [Hnil | (x & t0 & c & -> & Hc & Hw & Hst)].
        * rewrite Hnil. split; [cbn; lia | intros x []].
        * rewrite written_snoc, Hw.
          assert (Hby : writtenBy (mkEvent c false) = [])
            by (destruct c; reflexivity).
          rewrite Hby. cbn [app length In].
          split; [lia |]. intros y [<- | []]. rewrite Hst.
          unfold completedStatus. destruct isSimulation; discriminate. }
  unfold wp, run in *.
  destruct (executeArbitrageTradeWith C member userId o isSimulation (w, []))
    as [[e | r] [w' t]]; exact Hwp.
Qed.

End Pipeline.

(* ===================================================================== *)
(** * Runs with collaborators that answer *)
(* ===================================================================== *)

Lemma wp_invoke_ok {World A} (c : Call) (f : World -> Outcome A * World)
      (a : A) (Q : A -> State World -> Prop) E w t :
  fst (f w) = inr a ->
  (forall w', Q a (w', t ++ [mkEvent c true])%list) ->
  wp (invoke c f) Q E (w, t).
Proof.
  intros Hf HQ. unfold wp, invoke. destruct (f w) as [r w'].
  cbn [fst] in Hf. subst r. apply HQ.
Qed.

Lemma wp_invoke_returns {World A} (c : Call) (f : World -> Outcome A * World)
      (Q : A -> State World -> Prop) E w t :
  isReturn (fst (f w)) = true ->
  (forall a w', Q a (w', t ++ [mkEvent c true])%list) ->
  wp (invoke c f) Q E (w, t).
Proof.
  intros Hf HQ. unfold wp, invoke. destruct (f w) as [[e | a] w'].
  - discriminate Hf.
  - apply HQ.
Qed.

Ltac finish :=
  repeat match goal with
         | |- _ /\ _ => split
         | |- exists _, _ => eexists
         | |- _ = _ => reflexivity
         end.

Lemma truthyOpt_orStr a b :
  truthyOpt (orStr a b) = truthyOpt a || truthyOpt b.
Proof.
  unfold orStr. destruct a as [s |]; [| reflexivity].
  cbn [truthyOpt]. destruct (truthyStr s) eqn:Hs; cbn [truthyOpt orb]; auto.
Qed.

Section ReliableRuns.

Context {World : Type} (C : Collaborators World).
Variables (userId : string) (o : ArbitrageOpportunity)
          (config : BotConfig) (gasPriceGwei : string).
Hypothesis answers : Reliable C userId config gasPriceGwei.

(** A step of a run in which the assumed calls return; every other call
    is followed on both of its outcomes. *)
Ltac wp_ok :=
  cbv beta iota;
  lazymatch goal with
  | |- wp (invoke (createActivityLog _ _) _) _ _ _ =>
      eapply wp_invoke_ok; [apply (audit_ok _ _ _ _ answers) | intros ?]
  | |- wp (invoke (getBotConfig _) _) _ _ _ =>
      eapply wp_invoke_ok; [apply (config_ok _ _ _ _ answers) | intros ?]
  | |- wp (invoke getGasPrice _) _ _ _ =>
      eapply wp_invoke_ok; [apply (gas_ok _ _ _ _ answers) | intros ?]
  | |- wp (invoke (createArbitrageTransaction _ _) _) _ _ _ =>
      eapply wp_invoke_ok; [apply (record_ok _ _ _ _ answers) | intros ?]
  | |- wp (invoke (sendTelegramMessage _ _ _) _) _ _ _ =>
      eapply wp_invoke_ok; [apply (notify_ok _ _ _ _ answers) | intros ?]
  | |- wp (sample _) _ _ _ =>
      let H := fresh in
      apply wp_sample; intros ? ? H; try (injection H as <- <-)
  | |- _ => wp_step
  end.

(** A simulation run: it fails on the gas-price ceiling or succeeds,
    without any credential and without a balance query. *)
Lemma simulation_run member (w : World) :
  wp (executeArbitrageTradeWith C member userId o true)
     (fun r s' =>
        existsb isBalanceQuery (snd s') = false
        /\ if (gasCeiling config <? parseFloat gasPriceGwei)%float then
             (exists elapsed,
                r = failedResult
                      (errGasTooHigh (parseFloat gasPriceGwei) config)
                      elapsed)
             /\ written (snd s') = [txFailed o]
             /\ notified (snd s') = []
           else
             success r = true /\ error r = None
             /\ (exists hash,
                   txHash r = Some hash
                   /\ written (snd s') = [txSimulated o hash])
             /\ if (notifyThreshold config <=? estimatedProfitUsd o)%float
                then exists text,
                       notified (snd s') = [(text, "trade_success")]
                else notified (snd s') = [])
     (fun _ _ => False)
     (w, []).
Proof.
  unfold executeArbitrageTradeWith, tradeBody, tradeFailure, simulate,
    checkMaticBalance, notifyThreshold, failedResult.
  wp_unfold. cbn [negb andb].
  repeat wp_ok.
  all: trace_simpl; finish.
Qed.

(** A run that reaches the gas-price check with the price above the
    ceiling fails with the gas-too-high error, in simulation and in real
    mode, whatever the balance check found. *)
Lemma gas_too_high_run member isSimulation (w : World) :
  (isSimulation = false -> enableRealTrading config = true) ->
  (isSimulation = false ->
   forall w', truthyOpt (orStr (privateKey config)
                               (process_env_PRIVATE_KEY C w')) = true) ->
  (gasCeiling config <? parseFloat gasPriceGwei)%float = true ->
  wp (executeArbitrageTradeWith C member userId o isSimulation)
     (fun r s' =>
        (exists elapsed,
           r = failedResult (errGasTooHigh (parseFloat gasPriceGwei) config)
                            elapsed)
        /\ written (snd s') = [txFailed o]
        /\ notified (snd s') = [])
     (fun _ _ => False)
     (w, []).
Proof.
  intros Henabled Hkey Hgas.
  unfold executeArbitrageTradeWith, tradeBody, tradeFailure, simulate,
    checkMaticBalance, failedResult.
  wp_unfold.
  destruct isSimulation; cbn [negb andb].
  - repeat (cbv beta iota; rewrite ?Hgas; wp_ok). all: trace_simpl; finish.
  - repeat (cbv beta iota;
            rewrite ?(Henabled eq_refl), ?(Hkey eq_refl), ?Hgas;
            cbn [negb andb]; wp_ok).
    all: trace_simpl; finish.
Qed.

(** The try block's step 5 with a balance below the minimum: the error it
    throws is caught on the spot, logged as a warning, and the step
    returns. *)
Lemma low_balance_run key walletAddress balance (chainId : Z) (w : World) :
  truthyStr key = true ->
  ethers_Wallet C key = inr walletAddress ->
  chainId = (if networkMode config =? "mainnet" then 137%Z else 80002%Z) ->
  (forall w', fst (web3Provider_getNativeBalance C walletAddress chainId w')
              = inr balance) ->
  (parseFloat balance <? minMaticRequired)%float = true ->
  wp (checkMaticBalance C userId config false (Some key))
     (fun maticBalance s' =>
        maticBalance = balance
        /\ logged (snd s')
           = [ logBalance (parseFloat balance) walletAddress;
               logBalanceFailed (errInsufficientMatic (parseFloat balance)) ])
     (fun _ _ => False)
     (w, []).
Proof.
  intros Hkey Hwallet -> Hbalance Hlow.
  unfold checkMaticBalance. wp_unfold.
  rewrite Hkey, Hwallet. cbn [negb andb liftOutcome].
  repeat (cbv beta iota; rewrite ?Hlow;
          lazymatch goal with
          | |- wp (invoke (getNativeBalance _ _) _) _ _ _ =>
              eapply wp_invoke_ok; [apply Hbalance | intros ?]
          | |- _ => wp_ok
          end).
  trace_simpl. finish.
Qed.

(** The real-trading branch as it would run if the aggregator had a
    [buildSwapTransaction] member that returns: two legs are built
    back-to-back, one pending record holds the first leg's output amount,
    the notification is sent and the result is a success. *)
Lemma real_trade_with_builder (build : SwapBuilder World) loanAmount
      (w : World) :
  enableRealTrading config = true ->
  (forall w', truthyOpt (orStr (privateKey config)
                               (process_env_PRIVATE_KEY C w')) = true) ->
  (gasCeiling config <? parseFloat gasPriceGwei)%float = false ->
  ethers_parseUnits C (flashLoanAmount o) (decimals (tokenIn o))
  = inr loanAmount ->
  (forall this params w', isReturn (fst (build this params w')) = true) ->
  wp (executeArbitrageTradeWith C (Some build) userId o false)
     (fun r s' =>
        success r = true
        /\ exists realTxHash buySwap,
             txHash r = Some realTxHash
             /\ built (snd s')
                = [ mkParams (address (tokenIn o)) (address (tokenOut o))
                             (ofZ loanAmount) (privateKey config);
                    mkParams (address (tokenOut o)) (address (tokenIn o))
                             (swap_toAmount buySwap) (privateKey config) ]
             /\ written (snd s') = [txPending o realTxHash buySwap]
             /\ notified (snd s')
                = [(telegramPending o realTxHash, "trade_pending")])
     (fun _ _ => False)
     (w, []).
Proof.
  intros Henabled Hkey Hgas Hloan Hbuild.
  unfold executeArbitrageTradeWith, tradeBody, tradeFailure, tradeForReal,
    checkMaticBalance.
  wp_unfold. rewrite Hloan. cbn [liftOutcome].
  repeat (cbv beta iota; rewrite ?Henabled, ?Hkey, ?Hgas; cbn [negb andb];
          lazymatch goal with
          | |- wp (invoke (buildSwapTransaction _) _) _ _ _ =>
              apply wp_invoke_returns; [apply Hbuild | intros ? ?]
          | |- _ => wp_ok
          end).
  all: cbn [built flat_map builtBy]; trace_simpl; finish.
Qed.

End ReliableRuns.

(* ===================================================================== *)
(** * Real mode, for every behaviour of the collaborators *)
(* ===================================================================== *)

Section RealMode.

Context {World : Type} (C : Collaborators World).
Variables (userId : string) (o : ArbitrageOpportunity).

(** With the aggregator as it is, a real-mode call never gets past the
    first [buildSwapTransaction] call: no leg is built, no pending record
    is written, nothing is notified, and a returned result is a failure. *)
Lemma real_mode_run (w : World) :
  wp (executeArbitrageTrade C userId o false)
     (fun r s' =>
        success r = false /\ written (snd s') = [txFailed o]
        /\ notified (snd s') = [] /\ built (snd s') = [])
     (fun _ s' =>
        written (snd s') = [] /\ notified (snd s') = []
        /\ built (snd s') = [])
     (w, []).
Proof.
  unfold executeArbitrageTrade, executeArbitrageTradeWith,
    DexAggregator_buildSwapTransaction, tradeBody, tradeFailure,
    tradeForReal, checkMaticBalance.
  wp_unfold. cbn [negb andb].
  repeat wp_step.
  all: cbn [built flat_map builtBy]; trace_simpl; finish.
Qed.

(** Without a credential in the configuration or in the environment, a
    real-mode call makes no network query and never succeeds. *)
Lemma no_credential_run member (w : World) :
  (forall w0 c w1,
     storage_getBotConfig C userId w0 = (inr (Some c), w1) ->
     truthyOpt (privateKey c) = false) ->
  (forall w0, truthyOpt (process_env_PRIVATE_KEY C w0) = false) ->
  wp (executeArbitrageTradeWith C member userId o false)
     (fun r s' => success r = false
                  /\ existsb isNetworkQuery (snd s') = false)
     (fun _ s' => existsb isNetworkQuery (snd s') = false)
     (w, []).
Proof.
  intros Hconfig Henv.
  unfold executeArbitrageTradeWith, tradeBody, tradeFailure.
  wp_unfold. cbn [negb andb].
  repeat (cbv beta iota;
          rewrite ?truthyOpt_orStr, ?Henv;
          try match goal with
              | H : truthyOpt (privateKey _) = false |- _ => rewrite !H
              end;
          cbn [negb andb orb];
          lazymatch goal with
          | |- wp (invoke (getBotConfig _) _) _ _ _ =>
              let H := fresh "Hcall" in
              apply wp_invoke; intros [? | [? |]] ? H;
              [| apply Hconfig in H |]
          | |- wp (sample _) _ _ _ =>
              let H := fresh in
              apply wp_sample; intros ? ? H; try (injection H as <- <-)
          | |- _ => wp_step
          end).
  all: trace_simpl; finish.
Qed.

(** Real mode, the configuration found with real trading enabled, no
    credential anywhere, and the audit log and the record store
    answering: the run returns the credential-missing failure after the
    failed record, with no query and no notification, whatever the
    network and the notifier would do. *)
Lemma credential_gate_run member config (w : World) :
  (forall w', fst (storage_getBotConfig C userId w') = inr (Some config)) ->
  enableRealTrading config = true ->
  (forall entry w',
     fst (storage_createActivityLog C userId entry w') = inr tt) ->
  (forall tx w',
     fst (storage_createArbitrageTransaction C userId tx w') = inr tt) ->
  (forall w', truthyOpt (orStr (privateKey config)
                               (process_env_PRIVATE_KEY C w')) = false) ->
  wp (executeArbitrageTradeWith C member userId o false)
     (fun r s' =>
        (exists elapsed, r = failedResult errPrivateKey elapsed)
        /\ written (snd s') = [txFailed o]
        /\ notified (snd s') = []
        /\ existsb isNetworkQuery (snd s') = false)
     (fun _ _ => False)
     (w, []).
Proof.
  intros Hconfig Henabled Haudit Hrecord Hkey.
  unfold executeArbitrageTradeWith, tradeBody, tradeFailure, failedResult.
  wp_unfold.
  repeat (cbv beta iota; rewrite ?Henabled, ?Hkey; cbn [negb andb];
          lazymatch goal with
          | |- wp (invoke (createActivityLog _ _) _) _ _ _ =>
              eapply wp_invoke_ok; [apply Haudit | intros ?]
          | |- wp (invoke (getBotConfig _) _) _ _ _ =>
              eapply wp_invoke_ok; [apply Hconfig | intros ?]
          | |- wp (invoke (createArbitrageTransaction _ _) _) _ _ _ =>
              eapply wp_invoke_ok; [apply Hrecord | intros ?]
          | |- wp (sample _) _ _ _ =>
              let H := fresh in
              apply wp_sample; intros ? ? H; try (injection H as <- <-)
          | |- _ => wp_step
          end).
  all: trace_simpl; finish.
Qed.

End RealMode.

(* ===================================================================== *)
(** * Properties of executeArbitrageTrade *)
(* ===================================================================== *)

Lemma wp_run_pair {World A} (m : M World A)
      (Q : A -> list Event -> Prop) (E : JsError -> list Event -> Prop) w :
  wp m (fun a s' => Q a (snd s')) (fun e s' => E e (snd s')) (w, []) ->
  match run m w with
  | (inr a, (_, t)) => Q a t
  | (inl e, (_, t)) => E e t
  end.
Proof.
  unfold wp, run. now destruct (m (w, [])) as [[e | a] [w' t]].
Qed.

Lemma wp_run_returns {World A} (m : M World A)
      (Q : A -> State World -> Prop) w :
  wp m Q (fun _ _ => False) (w, []) ->
  exists a s', run m w = (inr a, s') /\ Q a s'.
Proof.
  unfold wp, run. destruct (m (w, [])) as [[e | a] s']; [easy |].
  intros H. now exists a, s'.
Qed.

(** The call can throw outward: with the audit log unavailable, the first
    log write throws, the failure path's own log write throws as well, and
    nothing catches that. *)
Lemma executeArbitrageTrade_throws_outward :
  let C := Fixture.collaborators
             (Fixture.mkFaults (fun _ => true) (fun _ => false) false false)
             (Some (Fixture.config false None None)) None "5" "30" in
  exists s',
    run (executeArbitrageTrade C "user-1" (Fixture.opportunity 25) true) 0%Z
    = (inl (newError "audit log unavailable"), s').
Proof. eexists. vm_compute. reflexivity. Qed.

(** Two records in one call: in a simulation whose notification throws
    after the success record was written, the failure path writes a failed
    record as well and the result is a failure. *)
Lemma two_records_when_notification_throws :
  let C := Fixture.collaborators
             (Fixture.mkFaults (fun _ => false) (fun _ => false) true false)
             (Some (Fixture.config false None None)) None "5" "30" in
  exists r s',
    run (executeArbitrageTrade C "user-1" (Fixture.opportunity 25) true) 0%Z
    = (inr r, s')
    /\ success r = false
    /\ error r = Some "telegram unavailable"
    /\ map status (written (snd s')) = [status_success; status_failed].
Proof. eexists _, _. vm_compute. repeat split. Qed.

(** C2.  With the aggregator holding no [buildSwapTransaction] member, a
    real-mode call never completes, whatever the collaborators do: no
    swap leg is built, no pending record is written, no notification is
    sent, and a returned result has [success = false].  At the failing
    input (real trading enabled, a credential, balance 5, gas price 30 under
    the ceiling of 60) the returned error is the TypeError of the call. *)
Theorem real_trading_never_completes :
  (forall World (C : Collaborators World) userId o w,
     match run (executeArbitrageTrade C userId o false) w with
     | (inr r, (_, t)) =>
         success r = false /\ written t = [txFailed o]
         /\ notified t = [] /\ built t = []
     | (inl _, (_, t)) => written t = [] /\ notified t = [] /\ built t = []
     end)
  /\ (let C := Fixture.collaborators Fixture.noFaults
                 (Some (Fixture.config true (Some Fixture.walletKey)
                                       (Some 60%float)))
                 None "5" "30" in
      exists r s',
        run (executeArbitrageTrade C "user-1" (Fixture.opportunity 25) false) 0%Z
        = (inr r, s')
        /\ success r = false
        /\ error r
           = Some "dexAggregator.buildSwapTransaction is not a function"
        /\ map status (written (snd s')) = [status_failed]
        /\ notified (snd s') = []).
Proof.
  split.
  - intros World C userId o w.
    apply (wp_run_pair (executeArbitrageTrade C userId o false)
             (fun r t => success r = false /\ written t = [txFailed o]
                         /\ notified t = [] /\ built t = [])
             (fun _ t => written t = [] /\ notified t = [] /\ built t = [])).
    apply real_mode_run.
  - eexists _, _. vm_compute. repeat split.
Qed.

(** C3.  At the failing input (real mode, a credential, queried balance
    0.05) the gas-reserve step finds the balance below 0.1, throws the
    insufficient-balance error, catches it itself, logs it as a warning
    and returns; the pipeline goes on to query the gas price, and the
    error finally returned is not the balance one. *)
Theorem low_balance_does_not_abort :
  let cfg := Fixture.config true (Some Fixture.walletKey) (Some 60%float) in
  let C := Fixture.collaborators Fixture.noFaults (Some cfg) None "0.05" "30" in
  (exists s',
     run (checkMaticBalance C "user-1" cfg false (Some Fixture.walletKey)) 0%Z
     = (inr "0.05", s')
     /\ logged (snd s')
        = [ logBalance 0.05 ("0xWalletOf" ++ Fixture.walletKey);
            logBalanceFailed (errInsufficientMatic 0.05) ])
  /\ emessage (errInsufficientMatic 0.05)
     = "Insufficient MATIC balance: 0.0500 MATIC (minimum: 0.1 MATIC required for gas)"
  /\ exists r s',
       run (executeArbitrageTrade C "user-1" (Fixture.opportunity 25) false) 0%Z
       = (inr r, s')
       /\ In (mkEvent getGasPrice true) (snd s')
       /\ error r
          = Some "dexAggregator.buildSwapTransaction is not a function".
Proof.
  split; [| split].
  - eexists. vm_compute. split; reflexivity.
  - vm_compute. reflexivity.
  - eexists _, _. split; [vm_compute; reflexivity |]. cbn [snd].
    split; [| reflexivity]. repeat (first [left; reflexivity | right]).
Qed.

(** C5.  At the failing input (real mode, a credential, queried balance
    0.05, gas price 80 over the ceiling of 60) both conditions are
    violated and the error returned is the gas-price one: the balance
    error was thrown, caught inside the gas-reserve step and logged as a
    warning. *)
Theorem gas_error_returned_despite_low_balance :
  let cfg := Fixture.config true (Some Fixture.walletKey) (Some 60%float) in
  let C := Fixture.collaborators Fixture.noFaults (Some cfg) None "0.05" "80" in
  exists r s',
    run (executeArbitrageTrade C "user-1" (Fixture.opportunity 25) false) 0%Z
    = (inr r, s')
    /\ success r = false
    /\ error r = Some "Gas price too high: 80 Gwei (max: 60)"
    /\ In (logBalanceFailed (errInsufficientMatic 0.05)) (logged (snd s'))
    /\ emessage (errInsufficientMatic 0.05)
       = "Insufficient MATIC balance: 0.0500 MATIC (minimum: 0.1 MATIC required for gas)".
Proof.
  eexists _, _. split; [vm_compute; reflexivity |]. cbn [snd].
  split; [reflexivity |]. split; [reflexivity |].
  split; [| vm_compute; reflexivity].
  vm_compute. repeat (first [left; reflexivity | right]).
Qed.

(** Real mode with real trading disabled and no credential: the error is
    the trading-disabled one, not the credential-missing one. *)
Lemma trading_disabled_comes_first :
  let C := Fixture.collaborators Fixture.noFaults (Some (Fixture.config false None None))
                         None "5" "30" in
  exists r s',
    run (executeArbitrageTrade C "user-1" (Fixture.opportunity 25) false) 0%Z
    = (inr r, s')
    /\ error r = Some "Real trading is disabled in configuration"
    /\ error r <> Some (emessage errPrivateKey).
Proof.
  eexists _, _. split; [vm_compute; reflexivity |].
  split; [reflexivity | discriminate].
Qed.

(** C6 (as amended).  In real mode, when neither the configuration nor
    the environment provides a credential, the call makes no balance or
    gas-price query and never succeeds, whatever the collaborators do;
    and when the configuration is found with real trading enabled and the
    audit-log and record writes return, it returns the credential-missing
    failure, whatever the network and the notifier would do. *)
Theorem missing_credential_fails_before_queries
        {World} (C : Collaborators World) member userId o (w : World) :
  (forall w0 c w1,
     storage_getBotConfig C userId w0 = (inr (Some c), w1) ->
     truthyOpt (privateKey c) = false) ->
  (forall w0, truthyOpt (process_env_PRIVATE_KEY C w0) = false) ->
  match run (executeArbitrageTradeWith C member userId o false) w with
  | (inr r, (_, t)) => success r = false /\ existsb isNetworkQuery t = false
  | (inl _, (_, t)) => existsb isNetworkQuery t = false
  end
  /\ forall config,
       (forall w', fst (storage_getBotConfig C userId w') = inr (Some config)) ->
       enableRealTrading config = true ->
       (forall entry w',
          fst (storage_createActivityLog C userId entry w') = inr tt) ->
       (forall tx w',
          fst (storage_createArbitrageTransaction C userId tx w') = inr tt) ->
       exists r s' elapsed,
         run (executeArbitrageTradeWith C member userId o false) w
         = (inr r, s')
         /\ r = failedResult errPrivateKey elapsed
         /\ error r
            = Some "Private key not configured for real trading. Set PRIVATE_KEY in environment or Settings."
         /\ written (snd s') = [txFailed o]
         /\ notified (snd s') = [].
Proof.
  intros Hnokey Henv. split.
  - apply (wp_run_pair (executeArbitrageTradeWith C member userId o false)
             (fun r t => success r = false /\ existsb isNetworkQuery t = false)
             (fun _ t => existsb isNetworkQuery t = false)).
    now apply no_credential_run.
  - intros config Hconfig Henabled Haudit Hrecord.
    assert (Hkey : truthyOpt (privateKey config) = false).
    { pose proof (Hconfig w) as Hc.
      destruct (storage_getBotConfig C userId w) as [r w1] eqn:Hcall.
      cbn [fst] in Hc. subst r. exact (Hnokey _ _ _ Hcall). }
    destruct (wp_run_returns _ _ w
                (credential_gate_run C userId o member config w
                   Hconfig Henabled Haudit Hrecord
                   (fun w' => eq_trans (truthyOpt_orStr _ _)
                      (f_equal2 orb Hkey (Henv w')))))
      as (r & s' & Hrun & (elapsed & ->) & Hw & Hn & _).
    exists (failedResult errPrivateKey elapsed), s', elapsed.
    repeat split; assumption.
Qed.

Lemma reliable_fixture cfg env balance gasPrice :
  Reliable (Fixture.collaborators Fixture.noFaults (Some cfg) env balance gasPrice)
           "user-1" cfg gasPrice.
Proof. split; reflexivity. Qed.

Lemma missing_credential_fails_before_queries_witness :
  let cfg := Fixture.config true None None in
  let faults := Fixture.mkFaults (fun _ => false) (fun _ => false) true true in
  let C := Fixture.collaborators faults (Some cfg) None "5" "30" in
  truthyOpt (privateKey cfg) = false
  /\ truthyOpt (process_env_PRIVATE_KEY C 0%Z) = false
  /\ enableRealTrading cfg = true
  /\ exists r s',
       run (executeArbitrageTrade C "user-1" (Fixture.opportunity 25) false)
           0%Z
       = (inr r, s')
       /\ error r
          = Some "Private key not configured for real trading. Set PRIVATE_KEY in environment or Settings."
       /\ existsb isNetworkQuery (snd s') = false.
Proof.
  pose (cfg := Fixture.config true None None).
  pose (faults := Fixture.mkFaults (fun _ => false) (fun _ => false) true true).
  pose (C := Fixture.collaborators faults (Some cfg) None "5" "30").
  do 3 (split; [reflexivity |]).
  destruct (missing_credential_fails_before_queries C None "user-1"
              (Fixture.opportunity 25) 0%Z)
    as [Hall Hgate].
  - intros w0 c w1 H. injection H as <- _. reflexivity.
  - reflexivity.
  - destruct (Hgate cfg (fun _ => eq_refl) eq_refl
                    (fun _ _ => eq_refl) (fun _ _ => eq_refl))
      as (r & s' & elapsed & Hrun & _ & Herr & _).
    exists r, s'. split; [exact Hrun |]. split; [exact Herr |].
    unfold executeArbitrageTrade, DexAggregator_buildSwapTransaction in Hrun.
    fold C in Hall. rewrite Hrun in Hall. destruct s' as [w' t].
    exact (proj2 Hall).
Defined.

(** C7.  A simulation does not need a credential.  When the stores, the
    network and the notifier answer and the gas price is not above the
    ceiling, the call returns a success, whatever the configured
    credential and the environment hold (in particular: nothing); one
    record with status success is written; the notification is sent when
    and only when the estimated profit reaches the threshold; and no
    balance query is made. *)
Theorem simulation_needs_no_credential
        {World} (C : Collaborators World) userId o config gasPriceGwei
        (w : World) :
  Reliable C userId config gasPriceGwei ->
  (gasCeiling config <? parseFloat gasPriceGwei)%float = false ->
  exists r s',
    run (executeArbitrageTrade C userId o true) w = (inr r, s')
    /\ success r = true
    /\ (exists hash,
          txHash r = Some hash
          /\ written (snd s') = [txSimulated o hash]
          /\ status (txSimulated o hash) = status_success)
    /\ (if (notifyThreshold config <=? estimatedProfitUsd o)%float
        then exists text, notified (snd s') = [(text, "trade_success")]
        else notified (snd s') = [])
    /\ existsb isBalanceQuery (snd s') = false.
Proof.
  intros answers Hgas.
  destruct (wp_run_returns _ _ w
              (simulation_run C userId o config gasPriceGwei answers
                 DexAggregator_buildSwapTransaction w))
    as (r & s' & Hrun & Hbal & Hres).
  rewrite Hgas in Hres. destruct Hres as (Hs & _ & (hash & Hh & Hw) & Hn).
  exists r, s'. repeat split; try assumption.
  exists hash. repeat split; assumption.
Qed.

Lemma simulation_needs_no_credential_witness :
  let cfg := Fixture.config false None None in
  let C := Fixture.collaborators Fixture.noFaults (Some cfg) None "0" "30" in
  exists r s',
    run (executeArbitrageTrade C "user-1" (Fixture.opportunity 25) true) 0%Z
    = (inr r, s')
    /\ success r = true
    /\ privateKey cfg = None
    /\ process_env_PRIVATE_KEY C 0%Z = None
    /\ length (notified (snd s')) = 1%nat.
Proof.
  pose (cfg := Fixture.config false None None).
  destruct (simulation_needs_no_credential
              (Fixture.collaborators Fixture.noFaults (Some cfg) None "0" "30")
              "user-1" (Fixture.opportunity 25) cfg "30" 0%Z
              (reliable_fixture cfg None "0" "30"))
    as (r & s' & Hrun & Hs & _ & Hn & _).
  - vm_compute. reflexivity.
  - exists r, s'. repeat split; try assumption.
    assert (Hth : (notifyThreshold cfg <=? estimatedProfitUsd (Fixture.opportunity 25))%float = true)
      by (vm_compute; reflexivity).
    rewrite Hth in Hn. destruct Hn as (text & ->). reflexivity.
Defined.

(** C10.  A configured maximum of 0 Gwei is the same ceiling as no
    configured maximum, namely 60: with it, a simulation whose
    collaborators answer is rejected exactly when the gas price exceeds
    60, so a zero maximum does not reject every trade. *)
Theorem zero_max_gas_means_default
        {World} (C : Collaborators World) userId o config gasPriceGwei
        (w : World) :
  Reliable C userId config gasPriceGwei ->
  maxGasPriceGwei config = Some 0%float ->
  gasCeiling config = 60%float
  /\ gasCeiling config = gasCeiling (withMaxGasPriceGwei config None)
  /\ exists r s',
       run (executeArbitrageTrade C userId o true) w = (inr r, s')
       /\ success r = negb (60 <? parseFloat gasPriceGwei)%float
       /\ (success r = false ->
           error r
           = Some (emessage (errGasTooHigh (parseFloat gasPriceGwei) config))).
Proof.
  intros answers Hzero.
  assert (Hceil : gasCeiling config = 60%float)
    by (unfold gasCeiling; rewrite Hzero; reflexivity).
  split; [exact Hceil |]. split; [rewrite Hceil; reflexivity |].
  destruct (wp_run_returns _ _ w
              (simulation_run C userId o config gasPriceGwei answers
                 DexAggregator_buildSwapTransaction w))
    as (r & s' & Hrun & _ & Hres).
  exists r, s'. split; [exact Hrun |]. rewrite Hceil in Hres.
  destruct (60 <? parseFloat gasPriceGwei)%float.
  - destruct Hres as ((elapsed & ->) & _). split; [reflexivity |].
    intros _. reflexivity.
  - destruct Hres as (Hs & _). split; [exact Hs |].
    rewrite Hs. discriminate.
Qed.

Lemma zero_max_gas_means_default_witness :
  let cfg := Fixture.config false None (Some 0%float) in
  let C := Fixture.collaborators Fixture.noFaults (Some cfg) None "0" "30" in
  maxGasPriceGwei cfg = Some 0%float
  /\ exists r s',
       run (executeArbitrageTrade C "user-1" (Fixture.opportunity 25) true) 0%Z
       = (inr r, s')
       /\ success r = true.
Proof.
  pose (cfg := Fixture.config false None (Some 0%float)).
  split; [reflexivity |].
  destruct (zero_max_gas_means_default
              (Fixture.collaborators Fixture.noFaults (Some cfg) None "0" "30")
              "user-1" (Fixture.opportunity 25) cfg "30" 0%Z
              (reliable_fixture cfg None "0" "30") eq_refl)
    as (_ & _ & r & s' & Hrun & Hs & _).
  exists r, s'. split; [exact Hrun |]. rewrite Hs. vm_compute. reflexivity.
Defined.

(* ===================================================================== *)
(** * The token registry *)
(* ===================================================================== *)

Lemma getTokenInfo_registry t addr :
  In t getSupportedTokens ->
  toLowerCase addr = toLowerCase (address t) ->
  getTokenInfo addr = t.
Proof.
  intros Hin Hlow. unfold getTokenInfo. rewrite Hlow.
  cbn in Hin.
  repeat (destruct Hin as [<- | Hin]; [reflexivity |]).
  destruct Hin.
Qed.

(** X1.  Looking a supported token up by its address, in any letter case,
    returns the registry entry of that token. *)
Theorem getTokenInfo_finds_supported_tokens t addr :
  In t getSupportedTokens ->
  toLowerCase addr = toLowerCase (address t) ->
  getTokenInfo addr = t
  /\ address (getTokenInfo addr) = address t.
Proof.
  intros Hin Hlow. rewrite (getTokenInfo_registry t addr Hin Hlow).
  split; reflexivity.
Qed.

Lemma getTokenInfo_finds_supported_tokens_witness :
  In (mkToken "USDC" "USD Coin" TOKENS.USDC 6) getSupportedTokens
  /\ getTokenInfo "0x2791bca1f2de4661ed88a30c99a7a9449aa84174"
     = mkToken "USDC" "USD Coin" TOKENS.USDC 6.
Proof.
  assert (Hin : In (mkToken "USDC" "USD Coin" TOKENS.USDC 6)
                   getSupportedTokens)
    by (cbn; auto).
  split; [exact Hin |].
  exact (proj1 (getTokenInfo_finds_supported_tokens _
                  "0x2791bca1f2de4661ed88a30c99a7a9449aa84174" Hin eq_refl)).
Defined.

(** X2.  The token resolved for an address carries that address up to
    letter case, an address no supported token has resolves to the
    UNKNOWN entry with 18 decimals and the address as given, and
    resolving the resolved address again changes nothing. *)
Theorem getTokenInfo_resolves addr :
  toLowerCase (address (getTokenInfo addr)) = toLowerCase addr
  /\ getTokenInfo (address (getTokenInfo addr)) = getTokenInfo addr
  /\ (In (getTokenInfo addr) getSupportedTokens
      \/ getTokenInfo addr = mkToken "UNKNOWN" "Unknown Token" addr 18).
Proof.
  destruct (find (fun t => toLowerCase (address t) =? toLowerCase addr)
                 getSupportedTokens) as [t |] eqn:Hfind.
  - assert (Hres : getTokenInfo addr = t)
      by (unfold getTokenInfo; now rewrite Hfind).
    apply find_some in Hfind. destruct Hfind as [Hin Heq].
    apply String.eqb_eq in Heq. rewrite Hres.
    split; [exact Heq |]. split; [| left; exact Hin].
    now apply getTokenInfo_registry.
  - assert (Hres : getTokenInfo addr
                   = mkToken "UNKNOWN" "Unknown Token" addr 18)
      by (unfold getTokenInfo; now rewrite Hfind).
    rewrite Hres. cbn [address].
    split; [reflexivity |]. split; [exact Hres | right; reflexivity].
Qed.

(* ===================================================================== *)
(** * The quote source, with and without the live service *)
(* ===================================================================== *)

Section Quotes.

Context {World : Type} (C : Collaborators World).

(** X3.  [getQuote] never throws, whatever the live service does: it
    returns a quote for the amount and the two tokens of the request,
    whose source is 1inch or QuickSwap, after at most one request. *)
Theorem getQuote_always_answers this params (w : World) :
  exists q w' t,
    run (getQuote C this params) w = (inr q, (w', t))
    /\ fromAmount q = amount params
    /\ fromToken q = getTokenInfo (src params)
    /\ toToken q = getTokenInfo (dst params)
    /\ (dex q = "1inch" \/ dex q = "QuickSwap")
    /\ (length (filter isQuoteRequest t) <= 1)%nat.
Proof.
  assert (Hwp :
    wp (getQuote C this params)
       (fun q s' =>
          fromAmount q = amount params
          /\ fromToken q = getTokenInfo (src params)
          /\ toToken q = getTokenInfo (dst params)
          /\ (dex q = "1inch" \/ dex q = "QuickSwap")
          /\ (length (filter isQuoteRequest (snd s')) <= 1)%nat)
       (fun _ _ => False) (w, [])).
  { unfold getQuote. repeat wp_step.
    all: cbn [fromAmount fromToken toToken dex snd app filter isQuoteRequest call
              length].
    all: repeat split; auto; try lia.
    all: destruct (0.5 <? _)%float; auto. }
  unfold wp, run in *.
  destruct (getQuote C this params (w, [])) as [[e | q] [w' t]]; [easy |].
  now exists q, w', t.
Qed.

(** X4.  With a key configured and the live request failing, the quote is
    the synthetic one: the caller gets the demo amount, the default gas
    estimate and no route, after the failed request and one console
    line. *)
Theorem getQuote_falls_back key params e (w w1 : World) :
  truthyStr key = true ->
  axios C quoteUrl params key w = (inl e, w1) ->
  exists q w',
    run (getQuote C (newDexAggregator (Some key)) params) w
    = (inr q,
       (w', [ mkEvent (axios_get quoteUrl params key) false;
              mkEvent (console_error
                         ("1inch API error, falling back to demo mode: "
                          ++ emessage e)) true ]))
    /\ toAmount q = Some (demoToAmount params)
    /\ estimatedGas q = "250000"
    /\ protocols q = None.
Proof.
  intros Hkey Hcall.
  unfold run, getQuote, newDexAggregator, orStr. rewrite Hkey.
  cbn [apiKey]. rewrite Hkey.
  unfold console. unfold tryCatch, attempt, bind, invoke, ret, sample.
  fold quoteUrl. rewrite Hcall. cbn [isReturn app].
  destruct (Math_random C w1) as [r w2].
  eexists _, _. split; [reflexivity |]. repeat split.
Qed.

(** X5.  With a key configured and the live request answered, the quote
    is the service's: its output amount is the response's [toAmount], or
    else its [toTokenAmount], or else undefined; the gas estimate
    defaults to 250000; the source is 1inch; no synthetic price is
    computed and no random number is drawn. *)
Theorem getQuote_live key params data (w w1 : World) :
  truthyStr key = true ->
  axios C quoteUrl params key w = (inr data, w1) ->
  exists q,
    run (getQuote C (newDexAggregator (Some key)) params) w
    = (inr q, (w1, [mkEvent (axios_get quoteUrl params key) true]))
    /\ toAmount q = orStr (data_toAmount data) (data_toTokenAmount data)
    /\ (data_toAmount data = None -> data_toTokenAmount data = None ->
        toAmount q = None)
    /\ estimatedGas q = orStrDefault (data_estimatedGas data) "250000"
    /\ protocols q = data_protocols data
    /\ dex q = "1inch".
Proof.
  intros Hkey Hcall.
  unfold run, getQuote, newDexAggregator, orStr. rewrite Hkey.
  cbn [apiKey]. rewrite Hkey.
  unfold console. unfold tryCatch, attempt, bind, invoke, ret, sample.
  fold quoteUrl. rewrite Hcall. cbn [isReturn app].
  eexists. split; [reflexivity |]. cbn [toAmount estimatedGas protocols dex].
  repeat split. intros -> ->. reflexivity.
Qed.

End Quotes.

Lemma getQuote_falls_back_witness :
  let C := Fixture.collaborators Fixture.noFaults None None "0" "0" in
  let params := mkParams TOKENS.WETH TOKENS.USDC "2" None in
  truthyStr "key" = true
  /\ exists q s',
       run (getQuote C (newDexAggregator (Some "key")) params) 0%Z
       = (inr q, s')
       /\ toAmount q = Some "5000.000000".
Proof.
  split; [reflexivity |].
  destruct (getQuote_falls_back
              (Fixture.collaborators Fixture.noFaults None None "0" "0")
              "key" (mkParams TOKENS.WETH TOKENS.USDC "2" None)
              (newError "Network Error") 0%Z 0%Z eq_refl eq_refl)
    as (q & w' & Hrun & Hamount & _).
  eexists q, _. split; [exact Hrun |]. rewrite Hamount.
  vm_compute. reflexivity.
Defined.

Lemma getQuote_live_witness :
  let data := mkResponse None (Some "4990") None None in
  let params := mkParams TOKENS.WETH TOKENS.USDC "2" None in
  truthyStr "key" = true
  /\ exists q s',
       run (getQuote (LiveFixture.collaborators data)
                     (newDexAggregator (Some "key")) params) 0%Z
       = (inr q, s')
       /\ toAmount q = Some "4990"
       /\ estimatedGas q = "250000".
Proof.
  split; [reflexivity |].
  destruct (getQuote_live
              (LiveFixture.collaborators
                 (mkResponse None (Some "4990") None None))
              "key" (mkParams TOKENS.WETH TOKENS.USDC "2" None)
              (mkResponse None (Some "4990") None None) 0%Z 0%Z
              eq_refl eq_refl)
    as (q & Hrun & Hamount & _ & Hgas & _).
  eexists q, _. split; [exact Hrun |]. now split.
Defined.

(* ===================================================================== *)
(** * Token prices *)
(* ===================================================================== *)

Section Prices.

Context {World : Type} (C : Collaborators World).
Variable axios_tokens : string -> string -> World -> Outcome TokenList * World.

Lemma draw2_returns f g (w : World) t :
  exists d w', draw2 C f g (w, t) = (inr d, (w', t)).
Proof.
  unfold draw2, bind, sample, ret.
  destruct (Math_random C w) as [r1 w1].
  destruct (Math_random C w1) as [r2 w2]. now eexists _, _.
Qed.

Lemma simulatePrice_returns address (w : World) t :
  exists d w', simulatePrice C address (w, t) = (inr d, (w', t)).
Proof.
  unfold simulatePrice.
  repeat match goal with
         | |- context [if ?b then _ else _] => destruct b
         end;
    apply draw2_returns.
Qed.

(** The demo path prices every requested address, in order. *)
Lemma demoPrices_spec tokenAddresses (w : World) t :
  exists prices w',
    demoPrices C tokenAddresses (w, t) = (inr prices, (w', t))
    /\ map price_address prices = tokenAddresses
    /\ Forall wellFormed prices.
Proof.
  revert w. induction tokenAddresses as [| address rest IH]; intros w.
  - exists [], w. repeat split. constructor.
  - destruct (simulatePrice_returns address w t) as (d & w1 & Hd).
    destruct (IH w1) as (prices & w2 & Hrest & Hmap & Hwf).
    eexists _, w2. cbn [demoPrices]. unfold bind at 1. rewrite Hd.
    unfold bind at 1. rewrite Hrest. split; [reflexivity |].
    cbn [map price_address]. rewrite Hmap. split; [reflexivity |].
    constructor; [reflexivity | exact Hwf].
Qed.

(** The demo path touches the world through the random source alone:
    two draws for each requested address, and nothing else. *)
Lemma draw2_world f g (w : World) t :
  snd (draw2 C f g (w, t))
  = (snd (Math_random C (snd (Math_random C w))), t).
Proof.
  unfold draw2, bind, sample, ret.
  destruct (Math_random C w) as [r1 w1]. cbn [snd].
  now destruct (Math_random C w1) as [r2 w2].
Qed.

Lemma simulatePrice_world address (w : World) t :
  snd (simulatePrice C address (w, t))
  = (snd (Math_random C (snd (Math_random C w))), t).
Proof.
  unfold simulatePrice.
  repeat match goal with
         | |- context [if ?b then _ else _] => destruct b
         end;
    apply draw2_world.
Qed.

Lemma iter_two_more {A} (f : A -> A) n (x : A) :
  Nat.iter (2 * S n) f x = Nat.iter (2 * n) f (f (f x)).
Proof.
  replace (2 * S n)%nat with (2 * n + 2)%nat by lia.
  now rewrite Nat.iter_add.
Qed.

Lemma demoPrices_world tokenAddresses (w : World) t :
  snd (demoPrices C tokenAddresses (w, t))
  = (Nat.iter (2 * length tokenAddresses)
              (fun w0 => snd (Math_random C w0)) w, t).
Proof.
  revert w. induction tokenAddresses as [| address rest IH]; intros w.
  - reflexivity.
  - change (length (address :: rest)) with (S (length rest)).
    rewrite iter_two_more.
    destruct (simulatePrice_returns address w t) as (d & w1 & Hd).
    pose proof (simulatePrice_world address w t) as Hw.
    rewrite Hd in Hw. cbn [snd] in Hw. injection Hw as ->.
    specialize (IH (snd (Math_random C (snd (Math_random C w))))).
    cbn [demoPrices]. unfold bind at 1. rewrite Hd. unfold bind at 1.
    destruct (demoPrices C rest
                (snd (Math_random C (snd (Math_random C w))), t))
      as [[e | prices] s2]; exact IH.
Qed.

Lemma livePrices_spec tokensData tokenAddresses :
  map price_address (livePrices tokensData tokenAddresses)
  = filter (isListed tokensData) tokenAddresses
  /\ Forall wellFormed (livePrices tokensData tokenAddresses).
Proof.
  induction tokenAddresses as [| a rest [IHmap IHwf]].
  - split; [reflexivity | constructor].
  - cbn [livePrices flat_map filter]. fold (livePrices tokensData rest).
    unfold isListed at 1.
    destruct (tokensData a) as [d |]; cbn [app map price_address].
    + rewrite IHmap. split; [reflexivity |].
      constructor; [reflexivity | exact IHwf].
    + now split.
Qed.

Lemma wp_request {A} (f : World -> Outcome A * World)
      (Q : A -> State World -> Prop) E w t :
  (forall r w', f w = (r, w') ->
     match r with
     | inr a => Q a (w', t)
     | inl e => E e (w', t)
     end) ->
  wp (request f) Q E (w, t).
Proof.
  intros H. unfold wp, request. destruct (f w) as [r w'] eqn:Hf.
  specialize (H r w' eq_refl). destruct r; exact H.
Qed.

Lemma wp_demoPrices tokenAddresses
      (Q : list TokenPrice -> State World -> Prop) E w t :
  (forall prices w',
     map price_address prices = tokenAddresses ->
     Forall wellFormed prices -> Q prices (w', t)) ->
  wp (demoPrices C tokenAddresses) Q E (w, t).
Proof.
  intros H. unfold wp.
  destruct (demoPrices_spec tokenAddresses w t) as (ps & w' & -> & Hm & Hwf).
  now apply H.
Qed.

(** The outcome of [getTokenPrices], path by path. *)
Lemma getTokenPrices_paths this tokenAddresses (w : World) :
  exists prices s',
    run (getTokenPrices C axios_tokens this tokenAddresses) w
    = (inr prices, s')
    /\ (Forall wellFormed prices
        /\ (map price_address prices = tokenAddresses
            \/ (prices <> []
                /\ exists tokensData,
                     prices = livePrices tokensData tokenAddresses))).
Proof.
  apply wp_run_returns.
  unfold getTokenPrices.
  repeat first
    [ apply wp_demoPrices; intros ? ? ? ?
    | apply wp_request; intros [? | ?] ? _
    | lazymatch goal with
      | |- context [match livePrices ?d ?a with _ => _ end] =>
          destruct (livePrices d a) eqn:?
      end
    | wp_step ].
  all: try (split; [assumption | left; assumption]).
  match goal with
  | H : livePrices ?d ?a = _ |- _ =>
      rewrite <- H; split; [apply livePrices_spec |];
      right; split; [rewrite H; discriminate | now exists d]
  end.
Qed.

(** X6.  [getTokenPrices] never throws.  Every price it returns is for a
    requested address and carries the registry's symbol for it, and the
    result is empty exactly when the request is. *)
Theorem getTokenPrices_always_answers this tokenAddresses (w : World) :
  exists prices s',
    run (getTokenPrices C axios_tokens this tokenAddresses) w
    = (inr prices, s')
    /\ (forall p, In p prices ->
          In (price_address p) tokenAddresses
          /\ price_symbol p = symbol (getTokenInfo (price_address p)))
    /\ (prices = [] <-> tokenAddresses = []).
Proof.
  destruct (getTokenPrices_paths this tokenAddresses w)
    as (prices & s' & Hrun & Hwf & Hpath).
  exists prices, s'. split; [exact Hrun |]. split.
  - intros p Hin. split; [| exact (proj1 (Forall_forall _ _) Hwf p Hin)].
    destruct Hpath as [<- | (_ & tokensData & ->)].
    + now apply in_map.
    + apply (in_map price_address) in Hin.
      rewrite (proj1 (livePrices_spec tokensData tokenAddresses)) in Hin.
      now apply filter_In in Hin.
  - destruct Hpath as [<- | (Hne & tokensData & ->)].
    + split; [intros ->; reflexivity |].
      intros H. now apply map_eq_nil in H.
    + split; [intros H; now apply Hne in H |].
      intros ->. now contradiction Hne.
Qed.

(** X7.  Without an API key, [getTokenPrices] never asks the token-list
    service and touches nothing but the random source.  Its result, its
    trace and the world it leaves are the same for every token-list
    service, whatever that service would answer or do to the world; the
    trace is empty; the world is the given one after two random draws for
    each requested address; and every requested address is priced, in the
    order of the request, duplicates included. *)
Theorem getTokenPrices_demo key tokenAddresses (w : World) :
  truthyOpt key = false ->
  exists prices,
    (forall service : string -> string -> World -> Outcome TokenList * World,
       run (getTokenPrices C service (newDexAggregator key) tokenAddresses) w
       = (inr prices,
          (Nat.iter (2 * length tokenAddresses)
                    (fun w0 => snd (Math_random C w0)) w,
           [])))
    /\ map price_address prices = tokenAddresses
    /\ length prices = length tokenAddresses.
Proof.
  intros Hkey.
  assert (Hnone : apiKey (newDexAggregator key) = None).
  { unfold newDexAggregator, orStr. cbn [apiKey].
    destruct key as [k |]; [| reflexivity].
    cbn [truthyOpt] in Hkey. now rewrite Hkey. }
  destruct (demoPrices_spec tokenAddresses w []) as (ps & w' & Hrun & Hm & _).
  pose proof (demoPrices_world tokenAddresses w []) as Hw.
  rewrite Hrun in Hw. cbn [snd] in Hw.
  assert (Hw' : w' = Nat.iter (2 * length tokenAddresses)
                              (fun w0 => snd (Math_random C w0)) w)
    by congruence.
  clear Hw. subst w'.
  exists ps. split; [| split; [exact Hm |]].
  - intros service. unfold run, getTokenPrices. rewrite Hnone.
    unfold bind at 1, ret at 1. now rewrite Hrun.
  - now rewrite <- Hm, length_map.
Qed.

(** X8.  With a key and a live token list that has at least one of the
    requested addresses, the result is read from the list alone: one
    entry for each requested address the list has, in the order of the
    request, none for the others; a price the entry lacks is read as 0;
    no random number is drawn. *)
Theorem getTokenPrices_live key tokensData tokenAddresses (w w1 : World) :
  truthyStr key = true ->
  axios_tokens tokensUrl key w = (inr tokensData, w1) ->
  (exists a, In a tokenAddresses /\ tokensData a <> None) ->
  exists prices,
    run (getTokenPrices C axios_tokens (newDexAggregator (Some key))
                        tokenAddresses) w
    = (inr prices, (w1, []))
    /\ map price_address prices
       = filter (isListed tokensData) tokenAddresses
    /\ (forall p d,
          In p prices -> tokensData (price_address p) = Some d ->
          (data_price d = None -> priceUsd p = 0%float)
          /\ (data_priceChange24h d = None -> priceChange24h p = 0%float)).
Proof.
  intros Hkey Hcall (a & Hin & Hsome).
  assert (Hne : livePrices tokensData tokenAddresses <> []).
  { intros Hnil.
    pose proof (proj1 (livePrices_spec tokensData tokenAddresses)) as Hmap.
    rewrite Hnil in Hmap. cbn [map] in Hmap.
    assert (Hf : In a (filter (isListed tokensData) tokenAddresses)).
    { apply filter_In. split; [exact Hin |]. unfold isListed.
      destruct (tokensData a); [reflexivity | now contradiction Hsome]. }
    rewrite <- Hmap in Hf. exact Hf. }
  exists (livePrices tokensData tokenAddresses). split; [| split].
  - unfold run, getTokenPrices, newDexAggregator, orStr. rewrite Hkey.
    cbn [apiKey]. rewrite Hkey.
    unfold bind at 1, tryCatch, attempt. unfold bind at 1 2, request, ret.
    fold tokensUrl. rewrite Hcall.
    destruct (livePrices tokensData tokenAddresses); [now contradiction Hne |].
    reflexivity.
  - apply livePrices_spec.
  - intros p d Hp Hd. unfold livePrices in Hp.
    apply in_flat_map in Hp. destruct Hp as (b & _ & Hb).
    destruct (tokensData b) as [d' |] eqn:Hb'; [| destruct Hb].
    destruct Hb as [<- | []]. cbn [price_address priceUsd priceChange24h] in *.
    rewrite Hb' in Hd. injection Hd as ->.
    split; intros ->; vm_compute; reflexivity.
Qed.

End Prices.

Lemma getTokenPrices_demo_witness :
  let C := Fixture.collaborators Fixture.noFaults None None "0" "0" in
  truthyOpt None = false
  /\ exists prices s',
       run (getTokenPrices C LiveFixture.axios_tokens (newDexAggregator None)
                           [TOKENS.WETH; "0xabc"; TOKENS.WETH]) 0%Z
       = (inr prices, s')
       /\ map price_symbol prices = ["WETH"; "UNKNOWN"; "WETH"]
       /\ map priceUsd prices = [2550; 5; 2550]%float.
Proof.
  split; [reflexivity |].
  destruct (getTokenPrices_demo
              (Fixture.collaborators Fixture.noFaults None None "0" "0")
              None [TOKENS.WETH; "0xabc"; TOKENS.WETH] 0%Z eq_refl)
    as (prices & Hrun & _).
  specialize (Hrun LiveFixture.axios_tokens).
  eexists prices, _. split; [exact Hrun |].
  vm_compute in Hrun. injection Hrun as <-. split; reflexivity.
Defined.

Lemma getTokenPrices_live_witness :
  let C := LiveFixture.collaborators (mkResponse None None None None) in
  let usdc := "0x2791bca1f2de4661ed88a30c99a7a9449aa84174" in
  truthyStr "key" = true
  /\ exists prices s',
       run (getTokenPrices C LiveFixture.axios_tokens
                           (newDexAggregator (Some "key"))
                           ["0xabc"; usdc]) 0%Z
       = (inr prices, s')
       /\ prices = [mkPrice usdc "USDC" 1.0002 0].
Proof.
  split; [reflexivity |].
  destruct (getTokenPrices_live
              (LiveFixture.collaborators (mkResponse None None None None))
              LiveFixture.axios_tokens "key" LiveFixture.tokenList
              ["0xabc"; "0x2791bca1f2de4661ed88a30c99a7a9449aa84174"]
              0%Z 0%Z eq_refl eq_refl)
    as (prices & Hrun & _).
  - exists "0x2791bca1f2de4661ed88a30c99a7a9449aa84174".
    split; [right; left; reflexivity | discriminate].
  - eexists prices, _. split; [exact Hrun |].
    vm_compute in Hrun. injection Hrun as <-. reflexivity.
Defined.

(* ===================================================================== *)
(** * Simulated swaps and opportunities *)
(* ===================================================================== *)


Section Swaps.

Context {World : Type} (C : Collaborators World).




End Swaps.


(* ===================================================================== *)
(** * More on the execution pipeline *)
(* ===================================================================== *)

(** A step that keeps what the branch taken says about its condition. *)
Ltac wp_step_eq :=
  cbv beta iota;
  lazymatch goal with
  | |- wp (if negb ?b then _ else _) _ _ _ => destruct b eqn:?; cbn [negb]
  | |- wp (if ?b then _ else _) _ _ _ => destruct b eqn:?
  | |- wp (sample _) _ _ _ =>
      let H := fresh in
      apply wp_sample; intros ? ? H; try (injection H as <- <-)
  | |- _ => wp_step
  end.

Ltac unfold_pipeline :=
  unfold executeArbitrageTrade, executeArbitrageTradeWith, tradeBody,
    tradeFailure, simulate, tradeForReal, checkMaticBalance;
  wp_unfold.

Ltac in_list :=
  lazymatch goal with
  | |- In ?x (?y :: _) =>
      first [constr_eq x y; left; exact eq_refl | right; in_list]
  end.

Lemma ltb_nan_r x : (x <? nan)%float = false.
Proof.
  rewrite ltb_spec. change (Prim2SF nan) with S754_nan.
  unfold SFltb, SFcompare. now destruct (Prim2SF x).
Qed.

Lemma ltb_nan_l x : (nan <? x)%float = false.
Proof.
  rewrite ltb_spec. change (Prim2SF nan) with S754_nan. reflexivity.
Qed.

Lemma sub_nan_r x : (x - nan)%float = nan.
Proof.
  rewrite <- (SF2Prim_Prim2SF (x - nan)), sub_spec.
  change (Prim2SF nan) with S754_nan.
  unfold SF64sub, SFsub. now destruct (Prim2SF x).
Qed.

Section PipelineFacts.

Context {World : Type} (C : Collaborators World).
Variables (member : option (SwapBuilder World)) (userId : string)
          (o : ArbitrageOpportunity).

Ltac trace_simpl' :=
  cbn [snd fst written notified logged flat_map writtenBy notifiedBy loggedBy
       call returned app status existsb isNetworkQuery isBalanceQuery
       isSwapBuild isLogOrNotify orb negb andb].

(** One symbolic run of the whole call, for every behaviour of the
    collaborators, and what holds at each of its exits. *)
Lemma pipeline_exits isSimulation (w : World) :
  wp (executeArbitrageTradeWith C member userId o isSimulation)
     (fun r s' =>
        (((length (notified (snd s')) <= 1)%nat
          /\ (success r = false -> notified (snd s') = []))
         /\ (success r = true -> recordAgrees o r (snd s'))
         /\ exists w' now,
              Date_now C w' = (now, fst s')
              /\ executionTime r
                 = Some (now - fst (Date_now C w))%float)
        /\ buildAfterGasCheck isSimulation (snd s')
        /\ (isSimulation = true -> existsb isBalanceQuery (snd s') = false))
     (fun _ s' =>
        notified (snd s') = []
        /\ buildAfterGasCheck isSimulation (snd s')
        /\ (isSimulation = true -> existsb isBalanceQuery (snd s') = false))
     (w, []).
Proof.
  unfold_pipeline.
  destruct isSimulation; cbn [negb andb]; [| destruct member].
  all: repeat wp_step_eq.
  all: try match goal with
           | H : Date_now C ?x = _ |- context [Date_now C ?x] => rewrite H
           end.
  all: cbn [snd fst success executionTime].
  all: split;
    [| unfold buildAfterGasCheck; trace_simpl'; split;
       [ first [discriminate | intros _; split; [reflexivity | in_list]]
       | first [discriminate | intros _; reflexivity] ] ].
  all: try (trace_simpl; reflexivity).
  all: split; [trace_simpl; cbn [length];
               split; [lia | first [reflexivity | discriminate]] |].
  all: split; [first [discriminate | intros _; unfold recordAgrees;
                      trace_simpl; eexists; split; [reflexivity |];
                      repeat split] |].
  all: match goal with
       | H : Date_now C ?x = (?a, ?wf)
         |- exists _ _, Date_now C _ = (_, ?wf) /\ _ =>
           exists x, a; split; [exact H | reflexivity]
       end.
Qed.

Ltac from_exits :=
  eapply wp_mono; [apply pipeline_exits | |]; cbv beta; intros; tauto.

(** X11.  A failure is never notified: when the call returns
    [success = false], or throws, no notification was delivered; and no
    call delivers more than one. *)
Theorem failure_sends_no_notification isSimulation (w : World) :
  match run (executeArbitrageTradeWith C member userId o isSimulation) w with
  | (inr r, (_, t)) =>
      (length (notified t) <= 1)%nat
      /\ (success r = false -> notified t = [])
  | (inl _, (_, t)) => notified t = []
  end.
Proof.
  apply (wp_run_pair
           (executeArbitrageTradeWith C member userId o isSimulation)
           (fun r t => (length (notified t) <= 1)%nat
                       /\ (success r = false -> notified t = []))
           (fun _ t => notified t = [])).
  from_exits.
Qed.

(** X12.  The identifier and the amounts of a success are those of the
    record: when the call returns [success = true], exactly one record
    was written, its hash is the returned one, and the result carries the
    opportunity's estimated profit and gas cost, which the record holds in
    their printed form together with the principal and the net profit. *)
Theorem success_agrees_with_record isSimulation (w : World) :
  match run (executeArbitrageTradeWith C member userId o isSimulation) w with
  | (inr r, (_, t)) => success r = true -> recordAgrees o r t
  | (inl _, (_, _)) => True
  end.
Proof.
  apply (wp_run_pair
           (executeArbitrageTradeWith C member userId o isSimulation)
           (fun r t => success r = true -> recordAgrees o r t)
           (fun _ _ => True)).
  from_exits.
Qed.

(** X14.  The elapsed time of every returned result, success or failure,
    is measured between the call's first and last steps: it is the clock
    reading the call takes last, the one that leaves the final world,
    minus the reading taken on entry. *)
Theorem executionTime_counts_from_entry isSimulation (w : World) :
  match run (executeArbitrageTradeWith C member userId o isSimulation) w with
  | (inr r, (w_final, _)) =>
      exists w' now,
        Date_now C w' = (now, w_final)
        /\ executionTime r = Some (now - fst (Date_now C w))%float
  | (inl _, (_, _)) => True
  end.
Proof.
  pose proof (pipeline_exits isSimulation w) as H. unfold wp in H.
  unfold run.
  destruct (executeArbitrageTradeWith C member userId o isSimulation (w, []))
    as [[e | r] [w_final t]]; [exact I |].
  exact (proj2 (proj2 (proj1 H))).
Qed.

(** X16.  A simulation stays off the chain: whatever the outcome, a
    simulated call makes no balance query and builds no swap leg; and a
    swap leg is built, or attempted, only by a real-mode call whose gas
    price query returned. *)
Theorem swap_built_only_in_real_mode isSimulation (w : World) :
  match run (executeArbitrageTradeWith C member userId o isSimulation) w with
  | (_, (_, t)) =>
      buildAfterGasCheck isSimulation t
      /\ (isSimulation = true -> existsb isBalanceQuery t = false)
  end.
Proof.
  pose proof (wp_run_pair
           (executeArbitrageTradeWith C member userId o isSimulation)
           (fun _ t => buildAfterGasCheck isSimulation t
                       /\ (isSimulation = true ->
                           existsb isBalanceQuery t = false))
           (fun _ t => buildAfterGasCheck isSimulation t
                       /\ (isSimulation = true ->
                           existsb isBalanceQuery t = false)) w) as H.
  destruct (run (executeArbitrageTradeWith C member userId o isSimulation) w)
    as [[e | r] [w' t]]; apply H; from_exits.
Qed.

End PipelineFacts.

Section ConfiguredRuns.

Context {World : Type} (C : Collaborators World).
Variables (member : option (SwapBuilder World)) (userId : string)
          (o : ArbitrageOpportunity) (config : BotConfig).

Hypothesis config_returns : forall w,
  fst (storage_getBotConfig C userId w) = inr (Some config).

(** A step of a run with the configuration known, which keeps what the
    gas price query answered and where the credential was resolved. *)
Ltac wp_keep :=
  cbv beta iota;
  lazymatch goal with
  | |- wp (invoke (getBotConfig _) _) _ _ _ =>
      eapply wp_invoke_ok; [apply config_returns | intros ?]
  | |- wp (invoke getGasPrice _) _ _ _ =>
      let H := fresh "Hgas" in
      apply wp_invoke; intros [? | ?] ? H;
      [clear H | apply (f_equal fst) in H; cbn [fst] in H]
  | |- wp (match ?x with Some _ => _ | None => _ end) _ _ _ =>
      destruct x eqn:?
  | |- _ => wp_step_eq
  end.

Lemma pipeline_checks isSimulation (w : World) :
  wp (executeArbitrageTradeWith C member userId o isSimulation)
     (fun r s' =>
        (success r = true -> checksPassed C config isSimulation (snd s'))
        /\ keyValidatedFirst C config isSimulation (snd s'))
     (fun _ s' => keyValidatedFirst C config isSimulation (snd s'))
     (w, []).
Proof.
  unfold_pipeline.
  destruct isSimulation; cbn [negb andb]; [| destruct member].
  all: repeat wp_keep.
  all: unfold checksPassed, keyValidatedFirst, resolvedKey.
  all: cbn [snd fst success]; trace_simpl.
  all: split || idtac.
  all: first
    [ discriminate
    | (* the network was reached *)
      lazymatch goal with
      | |- _ -> exists _, In (logKeyValidated _ _) _ /\ _ =>
          intros _;
          match goal with
          | Hk : orStr (privateKey config) (process_env_PRIVATE_KEY C ?w0) = _
            |- _ =>
              exists w0; rewrite Hk
          end;
          split; [in_list |];
          first [discriminate | intros _; split; assumption]
      | |- _ -> _ /\ _ =>
          intros _; split;
          [ match goal with
            | Hg : fst (web3Provider_getGasPrice C ?w0) = inr ?g
              |- context [logGas (parseFloat ?g) config ?m :: _] =>
                exists w0, g, m
            end;
            split; [assumption |]; split; [in_list |];
            split; [in_list | assumption]
          | first
              [ discriminate
              | intros _; split; [assumption |];
                match goal with
                | Hk : orStr (privateKey config)
                             (process_env_PRIVATE_KEY C ?w0) = _
                  |- _ =>
                    exists w0; rewrite Hk
                end;
                split; [assumption | in_list] ] ]
      end ].
Qed.

(** X13.  No success without the checks.  With the store returning
    [config]: when the call returns [success = true], the network
    answered the gas price query with a price that was logged and is not
    above the ceiling of [config]; in real mode, moreover, [config] has
    real trading enabled and the credential resolved from it or from the
    environment, logged as validated, is not empty. *)
Theorem success_requires_checks isSimulation (w : World) :
  match run (executeArbitrageTradeWith C member userId o isSimulation) w with
  | (inr r, (_, t)) =>
      success r = true -> checksPassed C config isSimulation t
  | (inl _, (_, _)) => True
  end.
Proof.
  apply (wp_run_pair
           (executeArbitrageTradeWith C member userId o isSimulation)
           (fun r t => success r = true -> checksPassed C config isSimulation t)
           (fun _ _ => True)).
  eapply wp_mono; [apply pipeline_checks | |]; cbv beta; intros; tauto.
Qed.

(** X15.  The network is reached only past the key validation.  With the
    store returning [config]: whatever the outcome of the call, if a gas
    price or balance query was made or attempted, the audit log holds the
    entry of the validated key, resolved from [config] or the
    environment; in real mode, moreover, [config] has real trading enabled
    and that key is not empty. *)
Theorem network_only_after_key_validation isSimulation (w : World) :
  match run (executeArbitrageTradeWith C member userId o isSimulation) w with
  | (_, (_, t)) => keyValidatedFirst C config isSimulation t
  end.
Proof.
  pose proof (wp_run_pair
           (executeArbitrageTradeWith C member userId o isSimulation)
           (fun _ t => keyValidatedFirst C config isSimulation t)
           (fun _ t => keyValidatedFirst C config isSimulation t) w) as H.
  destruct (run (executeArbitrageTradeWith C member userId o isSimulation) w)
    as [[e | r] [w' t]]; apply H;
    (eapply wp_mono; [apply pipeline_checks | |]; cbv beta; intros; tauto).
Qed.

End ConfiguredRuns.

Lemma success_requires_checks_witness :
  let cfg := Fixture.config false None None in
  let C := Fixture.collaborators Fixture.noFaults (Some cfg) None "0" "30" in
  (forall w, fst (storage_getBotConfig C "user-1" w) = inr (Some cfg))
  /\ exists r s',
       run (executeArbitrageTradeWith C None "user-1"
               (Fixture.opportunity 25) true) 0%Z
       = (inr r, s')
       /\ success r = true
       /\ checksPassed C cfg true (snd s').
Proof.
  split; [reflexivity |].
  pose proof (success_requires_checks
                (Fixture.collaborators Fixture.noFaults
                   (Some (Fixture.config false None None)) None "0" "30")
                None "user-1" (Fixture.opportunity 25)
                (Fixture.config false None None) (fun _ => eq_refl)
                true 0%Z) as H.
  destruct (run _ _) as [[e | r] [w' t]] eqn:Hrun in H |- *.
  - exfalso. vm_compute in Hrun. discriminate Hrun.
  - assert (Hs : success r = true)
      by (vm_compute in Hrun; now injection Hrun as <- _ _).
    exists r, (w', t). split; [reflexivity |]. split; [exact Hs |].
    exact (H Hs).
Defined.

Lemma network_only_after_key_validation_witness :
  let cfg := Fixture.config true None None in
  let C := Fixture.collaborators Fixture.noFaults (Some cfg)
             (Some Fixture.walletKey) "5" "30" in
  let t := snd (snd (run (executeArbitrageTradeWith C None "user-1"
                            (Fixture.opportunity 25) false) 0%Z)) in
  (forall w, fst (storage_getBotConfig C "user-1" w) = inr (Some cfg))
  /\ existsb isNetworkQuery t = true
  /\ keyValidatedFirst C cfg false t.
Proof.
  split; [reflexivity |]. split; [vm_compute; reflexivity |].
  pose proof (network_only_after_key_validation
                (Fixture.collaborators Fixture.noFaults
                   (Some (Fixture.config true None None))
                   (Some Fixture.walletKey) "5" "30")
                None "user-1" (Fixture.opportunity 25)
                (Fixture.config true None None) (fun _ => eq_refl)
                false 0%Z) as H.
  destruct (run _ _) as [out [w' t]] in H |- *. exact H.
Defined.

(* ===================================================================== *)
(** * The gates of the pipeline and its edge values *)
(* ===================================================================== *)

Section Gates.

Context {World : Type} (C : Collaborators World).
Variables (member : option (SwapBuilder World)) (userId : string)
          (o : ArbitrageOpportunity).

Hypothesis audit_returns : forall u entry w,
  fst (storage_createActivityLog C u entry w) = inr tt.
Hypothesis record_returns : forall u tx w,
  fst (storage_createArbitrageTransaction C u tx w) = inr tt.

(** A step of a run whose audit log and record store answer. *)
Ltac wp_gate Hconfig :=
  cbv beta iota;
  lazymatch goal with
  | |- wp (invoke (createActivityLog _ _) _) _ _ _ =>
      eapply wp_invoke_ok; [apply audit_returns | intros ?]
  | |- wp (invoke (createArbitrageTransaction _ _) _) _ _ _ =>
      eapply wp_invoke_ok; [apply record_returns | intros ?]
  | |- wp (invoke (getBotConfig _) _) _ _ _ =>
      eapply wp_invoke_ok; [apply Hconfig | intros ?]
  | |- _ => wp_step_eq
  end.

(** X17.  Without a stored configuration nothing is attempted: when the
    store answers that the user has none, a call in either mode returns
    the failure 'Bot configuration not found' after writing the failed
    record, and makes no network query. *)
Theorem missing_configuration_fails isSimulation (w : World) :
  (forall w', fst (storage_getBotConfig C userId w') = inr None) ->
  exists r s',
    run (executeArbitrageTradeWith C member userId o isSimulation) w
    = (inr r, s')
    /\ (exists elapsed, r = failedResult errConfigNotFound elapsed)
    /\ written (snd s') = [txFailed o]
    /\ logged (snd s')
       = [logValidation o isSimulation;
          logFailure o isSimulation errConfigNotFound]
    /\ existsb isNetworkQuery (snd s') = false.
Proof.
  intros Hconfig.
  apply wp_run_returns
    with (Q := fun r s' =>
                 (exists elapsed, r = failedResult errConfigNotFound elapsed)
                 /\ written (snd s') = [txFailed o]
                 /\ logged (snd s')
                    = [logValidation o isSimulation;
                       logFailure o isSimulation errConfigNotFound]
                 /\ existsb isNetworkQuery (snd s') = false).
  unfold_pipeline. unfold failedResult.
  repeat wp_gate Hconfig.
  trace_simpl. finish.
Qed.

(** X18.  Real trading is refused while it is disabled: when the stored
    configuration has [enableRealTrading] off, a real-mode call returns
    the failure 'Real trading is disabled in configuration' after writing
    the failed record, and makes no network query, whatever credential is
    configured. *)
Theorem disabled_trading_fails config (w : World) :
  (forall w', fst (storage_getBotConfig C userId w') = inr (Some config)) ->
  enableRealTrading config = false ->
  exists r s',
    run (executeArbitrageTradeWith C member userId o false) w = (inr r, s')
    /\ (exists elapsed, r = failedResult errTradingDisabled elapsed)
    /\ written (snd s') = [txFailed o]
    /\ logged (snd s')
       = [logValidation o false; logFailure o false errTradingDisabled]
    /\ existsb isNetworkQuery (snd s') = false.
Proof.
  intros Hconfig Hoff.
  apply wp_run_returns
    with (Q := fun r s' =>
                 (exists elapsed, r = failedResult errTradingDisabled elapsed)
                 /\ written (snd s') = [txFailed o]
                 /\ logged (snd s')
                    = [logValidation o false;
                       logFailure o false errTradingDisabled]
                 /\ existsb isNetworkQuery (snd s') = false).
  unfold_pipeline. unfold failedResult. cbn [negb andb]. rewrite ?Hoff.
  repeat (cbv beta iota; rewrite ?Hoff; cbn [negb andb]; wp_gate Hconfig).
  trace_simpl. finish.
Qed.

End Gates.

Lemma missing_configuration_fails_witness :
  let C := Fixture.collaborators Fixture.noFaults None (Some Fixture.walletKey) "5" "30" in
  (forall w', fst (storage_getBotConfig C "user-1" w') = inr None)
  /\ exists r s',
       run (executeArbitrageTradeWith C None "user-1"
               (Fixture.opportunity 25) true) 0%Z
       = (inr r, s')
       /\ (exists elapsed, r = failedResult errConfigNotFound elapsed)
       /\ existsb isNetworkQuery (snd s') = false.
Proof.
  split; [reflexivity |].
  destruct (missing_configuration_fails
              (Fixture.collaborators Fixture.noFaults None (Some Fixture.walletKey)
                                     "5" "30")
              None "user-1" (Fixture.opportunity 25)
              (fun _ _ _ => eq_refl) (fun _ _ _ => eq_refl) true 0%Z
              (fun _ => eq_refl))
    as (r & s' & Hrun & Hr & _ & _ & Hq).
  exists r, s'. repeat split; assumption.
Defined.

Lemma disabled_trading_fails_witness :
  let cfg := Fixture.config false (Some Fixture.walletKey) None in
  let C := Fixture.collaborators Fixture.noFaults (Some cfg) None "5" "30" in
  (forall w', fst (storage_getBotConfig C "user-1" w') = inr (Some cfg))
  /\ enableRealTrading cfg = false
  /\ exists r s',
       run (executeArbitrageTradeWith C None "user-1"
               (Fixture.opportunity 25) false) 0%Z
       = (inr r, s')
       /\ (exists elapsed, r = failedResult errTradingDisabled elapsed)
       /\ existsb isNetworkQuery (snd s') = false.
Proof.
  split; [reflexivity |]. split; [reflexivity |].
  destruct (disabled_trading_fails
              (Fixture.collaborators Fixture.noFaults
                 (Some (Fixture.config false (Some Fixture.walletKey) None))
                 None "5" "30")
              None "user-1" (Fixture.opportunity 25)
              (fun _ _ _ => eq_refl) (fun _ _ _ => eq_refl)
              (Fixture.config false (Some Fixture.walletKey) None) 0%Z
              (fun _ => eq_refl) eq_refl)
    as (r & s' & Hrun & Hr & _ & _ & Hq).
  exists r, s'. repeat split; assumption.
Defined.

Section Edges.

Context {World : Type} (C : Collaborators World).
Variables (member : option (SwapBuilder World)) (userId : string)
          (o : ArbitrageOpportunity).

Ltac same_event Hin :=
  cbn [In] in Hin;
  repeat (destruct Hin as [Hin | Hin]; [try discriminate Hin |]);
  try contradiction.

(** X19.  The balance step never aborts the trade on what it finds: an
    invalid key, a failed query and a balance below the reserve all end in
    a returned balance.  The step throws only when the write of its own
    warning entry throws.  In a simulation, or without a credential, it
    does nothing and reports '0'; and every balance query it makes is for
    the chain of the configured network mode. *)
Theorem balance_step_never_aborts config isSimulation key (w : World) :
  match run (checkMaticBalance C userId config isSimulation key) w with
  | (inr balance, (_, t)) =>
      (isSimulation = true \/ truthyOpt key = false ->
       t = [] /\ balance = "0")
      /\ (forall addr chain ok,
            In (mkEvent (getNativeBalance addr chain) ok) t ->
            chain = chainIdOf config)
      /\ (balance = "0"
          \/ exists addr,
               In (mkEvent (getNativeBalance addr (chainIdOf config)) true) t)
  | (inl _, (_, t)) =>
      exists t' e,
        t = (t' ++ [mkEvent (createActivityLog userId (logBalanceFailed e))
                            false])%list
  end.
Proof.
  apply (wp_run_pair
           (checkMaticBalance C userId config isSimulation key)
           (fun balance t =>
              (isSimulation = true \/ truthyOpt key = false ->
               t = [] /\ balance = "0")
              /\ (forall addr chain ok,
                    In (mkEvent (getNativeBalance addr chain) ok) t ->
                    chain = chainIdOf config)
              /\ (balance = "0"
                  \/ exists addr,
                       In (mkEvent (getNativeBalance addr (chainIdOf config))
                                   true) t))
           (fun _ t =>
              exists t' e,
                t = (t' ++ [mkEvent (createActivityLog userId
                                       (logBalanceFailed e)) false])%list)).
  unfold checkMaticBalance, chainIdOf. wp_unfold.
  destruct key as [pk |]; [| apply wp_ret; cbn [snd];
                             repeat split; auto; intros ? ? ? []].
  destruct isSimulation; cbn [negb andb truthyOpt];
    [apply wp_ret; cbn [snd]; repeat split; auto; intros ? ? ? [] |].
  destruct (truthyStr pk) eqn:Hpk;
    [| apply wp_ret; cbn [snd]; repeat split; auto; intros ? ? ? []].
  repeat wp_step.
  all: cbn [snd app].
  all: try (first [ eexists [_], _; reflexivity
                  | eexists [_; _], _; reflexivity
                  | eexists [_; _; _], _; reflexivity
                  | eexists [_; _; _; _], _; reflexivity ]).
  all: split; [intros [Hs | Hk]; discriminate |].
  all: split;
    [ intros addr chain ok Hin; same_event Hin;
      try (injection Hin as _ <- _; reflexivity)
    | first [ left; reflexivity
            | right; eexists; cbn [In]; left; reflexivity
            | right; eexists; cbn [In]; right; left; reflexivity ] ].
Qed.

(** X21.  [executeArbitrageTrade] never looks at the age of the
    opportunity: the call is the same computation whatever the timestamp
    (the age check of [validateOpportunity] is not part of it). *)
Theorem executeArbitrageTrade_ignores_timestamp ts isSimulation :
  executeArbitrageTradeWith C member userId (withTimestamp o ts) isSimulation
  = executeArbitrageTradeWith C member userId o isSimulation.
Proof. destruct o. reflexivity. Qed.

(** X22.  [validateOpportunity] only reads: whatever the outcome, its
    trace is one read of the configuration followed by at most one console
    line; nothing is written to the audit log or the transaction store,
    nothing is notified and no network query is made. *)
Theorem validateOpportunity_only_reads (w : World) :
  match run (validateOpportunity C userId o) w with
  | (_, (_, t)) =>
      exists ok rest,
        t = mkEvent (getBotConfig userId) ok :: rest
        /\ (length rest <= 1)%nat
        /\ written t = [] /\ logged t = [] /\ notified t = []
        /\ existsb isNetworkQuery t = false
  end.
Proof.
  unfold run, validateOpportunity, tryCatch, attempt, bind, storage_config,
    invoke, sample, console, ret.
  destruct (storage_getBotConfig C userId w) as [[e | config] w1].
  - eexists _, _. cbn [app isReturn]. split; [reflexivity |].
    cbn. repeat split; lia.
  - destruct (Date_now C w1) as [now w2].
    destruct (30000 <? now - timestamp o)%float;
      [| destruct (netProfitPercent o <? _)%float].
    all: eexists _, _; cbn [app isReturn]; split; [reflexivity |].
    all: cbn; repeat split; lia.
Qed.

(** X23.  NaN passes both checks of the validator.  When the store
    yields a configuration (or none): an opportunity whose timestamp is
    NaN is never too old, so the answer is that of the profit check alone;
    and one whose net profit is NaN is never below the minimum, so the
    answer is that of the age check alone. *)
Theorem validateOpportunity_passes_nan config (w : World) :
  fst (storage_getBotConfig C userId w) = inr config ->
  exists b s',
    run (validateOpportunity C userId o) w = (inr b, s')
    /\ (timestamp o = nan -> b = negb (belowMinimum config o))
    /\ (netProfitPercent o = nan ->
        b = negb (tooOld
                    (fst (Date_now C (snd (storage_getBotConfig C userId w))))
                    o)).
Proof.
  unfold run, validateOpportunity, tryCatch, attempt, bind, storage_config,
    invoke, sample, console, ret, tooOld, belowMinimum.
  destruct (storage_getBotConfig C userId w) as [r w1]. cbn [fst snd].
  intros ->.
  destruct (Date_now C w1) as [now w2]. cbn [fst].
  rewrite minimumNetProfit_source.
  destruct (30000 <? now - timestamp o)%float eqn:Hage.
  - eexists _, _. split; [reflexivity |]. split.
    + intros Hts. rewrite Hts, sub_nan_r, ltb_nan_r in Hage. discriminate.
    + reflexivity.
  - destruct (netProfitPercent o <? minimumNetProfit config)%float eqn:Hmin.
    + eexists _, _. split; [reflexivity |]. split; [reflexivity |].
      intros Hp. rewrite Hp, ltb_nan_l in Hmin. discriminate.
    + eexists _, _. split; [reflexivity |]. split; reflexivity.
Qed.

(** X24.  A configured minimum that does not parse switches the profit
    check off: with a non-empty [minNetProfitPercent] that [parseFloat]
    reads as NaN, the validator's answer is that of the age check alone,
    whatever the net profit. *)
Theorem unparsable_minimum_accepts_any_profit c m (w : World) :
  fst (storage_getBotConfig C userId w) = inr (Some c) ->
  minNetProfitPercent c = Some m ->
  truthyStr m = true ->
  parseFloat m = nan ->
  fst (run (validateOpportunity C userId o) w)
  = inr (negb (tooOld
                 (fst (Date_now C (snd (storage_getBotConfig C userId w))))
                 o)).
Proof.
  unfold run, validateOpportunity, tryCatch, attempt, bind, storage_config,
    invoke, sample, console, ret, tooOld.
  destruct (storage_getBotConfig C userId w) as [r w1]. cbn [fst snd].
  intros -> Hm Ht Hnan.
  destruct (Date_now C w1) as [now w2]. cbn [fst].
  rewrite Hm. unfold orStrDefault. rewrite Ht, Hnan, ltb_nan_r.
  destruct (30000 <? now - timestamp o)%float; reflexivity.
Qed.

End Edges.

Section UnparsableGas.

Context {World : Type} (C : Collaborators World).
Variables (userId : string) (o : ArbitrageOpportunity)
          (config : BotConfig) (gasPriceGwei : string).

(** X20.  A gas price that does not parse is never too high: when the
    collaborators answer and [parseFloat] reads the reported gas price as
    NaN, a simulation passes the ceiling, whatever the configured maximum,
    and returns a success with its record. *)
Theorem unparsable_gas_price_passes member (w : World) :
  Reliable C userId config gasPriceGwei ->
  parseFloat gasPriceGwei = nan ->
  exists r s',
    run (executeArbitrageTradeWith C member userId o true) w = (inr r, s')
    /\ success r = true
    /\ exists hash,
         txHash r = Some hash /\ written (snd s') = [txSimulated o hash].
Proof.
  intros answers Hnan.
  destruct (wp_run_returns _ _ w
              (simulation_run C userId o config gasPriceGwei answers
                 member w))
    as (r & s' & Hrun & _ & Hres).
  rewrite Hnan, ltb_nan_r in Hres.
  destruct Hres as (Hs & _ & Hrec & _).
  exists r, s'. repeat split; assumption.
Qed.

End UnparsableGas.

Lemma unparsable_gas_price_passes_witness :
  let cfg := Fixture.config false None (Some 1%float) in
  let C := Fixture.collaborators Fixture.noFaults (Some cfg) None "0" "n/a" in
  parseFloat "n/a" = nan
  /\ exists r s',
       run (executeArbitrageTradeWith C None "user-1"
               (Fixture.opportunity 25) true) 0%Z
       = (inr r, s')
       /\ success r = true.
Proof.
  split; [vm_compute; reflexivity |].
  destruct (unparsable_gas_price_passes
              (Fixture.collaborators Fixture.noFaults
                 (Some (Fixture.config false None (Some 1%float)))
                 None "0" "n/a")
              "user-1" (Fixture.opportunity 25)
              (Fixture.config false None (Some 1%float)) "n/a" None 0%Z
              (reliable_fixture _ None "0" "n/a"))
    as (r & s' & Hrun & Hs & _).
  - vm_compute. reflexivity.
  - exists r, s'. split; assumption.
Defined.

Lemma validateOpportunity_passes_nan_witness :
  let cfg := Fixture.config false None None in
  let C := Fixture.collaborators Fixture.noFaults (Some cfg) None "0" "30" in
  let o := withTimestamp (Fixture.opportunity 25) nan in
  fst (storage_getBotConfig C "user-1" 0%Z) = inr (Some cfg)
  /\ timestamp o = nan
  /\ exists s', run (validateOpportunity C "user-1" o) 0%Z = (inr true, s').
Proof.
  split; [reflexivity |]. split; [reflexivity |].
  destruct (validateOpportunity_passes_nan
              (Fixture.collaborators Fixture.noFaults
                 (Some (Fixture.config false None None)) None "0" "30")
              "user-1" (withTimestamp (Fixture.opportunity 25) nan)
              (Some (Fixture.config false None None)) 0%Z eq_refl)
    as (b & s' & Hrun & Hts & _).
  exists s'. rewrite Hrun. rewrite (Hts eq_refl). vm_compute. reflexivity.
Defined.

Lemma unparsable_minimum_accepts_any_profit_witness :
  let cfg := mkBotConfig false None "mainnet" None (Some "auto") None None in
  let C := Fixture.collaborators Fixture.noFaults (Some cfg) None "0" "30" in
  let o := mkOpportunity "opp-2" Fixture.WMATIC Fixture.USDC "QuickSwap"
             "1inch" "1000" 0 0.5 (-40) (decToFloat false 1700000000000 0) in
  parseFloat "auto" = nan
  /\ netProfitPercent o = (-40)%float
  /\ fst (run (validateOpportunity C "user-1" o) 0%Z) = inr true.
Proof.
  split; [vm_compute; reflexivity |]. split; [reflexivity |].
  rewrite (unparsable_minimum_accepts_any_profit
             (Fixture.collaborators Fixture.noFaults
                (Some (mkBotConfig false None "mainnet" None (Some "auto")
                                   None None))
                None "0" "30")
             "user-1" _ _ "auto" 0%Z eq_refl eq_refl).
  - vm_compute. reflexivity.
  - vm_compute. reflexivity.
  - vm_compute. reflexivity.
Defined.

Section Legs.

Context {World : Type} (C : Collaborators World).
Variables (member : option (SwapBuilder World)) (userId : string)
          (o : ArbitrageOpportunity) (config : BotConfig).

Hypothesis config_returns : forall w,
  fst (storage_getBotConfig C userId w) = inr (Some config).

(** X25.  The two swap legs mirror each other.  With the store returning
    [config], whatever the other collaborators and the
    [buildSwapTransaction] member do: the legs a real-mode call gets built
    are, in this order, the buy leg, from the input token to the output
    token for the principal in base units; then the sell leg, back from
    the output token to the input token, for the [toAmount] of the swap
    the member returned for the buy leg.  Both carry the configured
    private key in the sender field [from], also when the credential in
    use comes from the environment.  Without such a member no leg is
    built. *)
Theorem swap_legs_mirror (w : World) :
  match run (executeArbitrageTradeWith C member userId o false) w with
  | (_, (_, t)) =>
      built t = []
      \/ exists build loanAmount w0 buySwap,
           let dexAggregator :=
             newDexAggregator (orStr (oneinchApiKey config) None) in
           let buy := mkParams (address (tokenIn o)) (address (tokenOut o))
                               (ofZ loanAmount) (privateKey config) in
           let sell := mkParams (address (tokenOut o)) (address (tokenIn o))
                                (swap_toAmount buySwap) (privateKey config) in
           member = Some build
           /\ ethers_parseUnits C (flashLoanAmount o) (decimals (tokenIn o))
              = inr loanAmount
           /\ fst (build dexAggregator buy w0) = inr buySwap
           /\ (built t = [buy] \/ built t = [buy; sell])
  end.
Proof.
  pose (legs := fun t : list Event =>
      built t = []
      \/ exists build loanAmount w0 buySwap,
           let dexAggregator :=
             newDexAggregator (orStr (oneinchApiKey config) None) in
           let buy := mkParams (address (tokenIn o)) (address (tokenOut o))
                               (ofZ loanAmount) (privateKey config) in
           let sell := mkParams (address (tokenOut o)) (address (tokenIn o))
                                (swap_toAmount buySwap) (privateKey config) in
           member = Some build
           /\ ethers_parseUnits C (flashLoanAmount o) (decimals (tokenIn o))
              = inr loanAmount
           /\ fst (build dexAggregator buy w0) = inr buySwap
           /\ (built t = [buy] \/ built t = [buy; sell])).
  assert (Hwp : wp (executeArbitrageTradeWith C member userId o false)
                   (fun _ s' => legs (snd s')) (fun _ s' => legs (snd s'))
                   (w, []));
    [| pose proof (wp_run_pair
                     (executeArbitrageTradeWith C member userId o false)
                     (fun _ t => legs t) (fun _ t => legs t) w Hwp) as H;
       destruct (run (executeArbitrageTradeWith C member userId o false) w)
         as [[e | r] [w' t]]; exact H].
  unfold_pipeline; cbn [negb andb]; destruct member as [build |].
  all: repeat (cbv beta iota;
               lazymatch goal with
               | |- wp (invoke (getBotConfig _) _) _ _ _ =>
                   eapply wp_invoke_ok; [apply config_returns | intros ?]
               | |- wp (invoke (buildSwapTransaction _) _) _ _ _ =>
                   let H := fresh "Hbuild" in
                   apply wp_invoke; intros [? | ?] ? H;
                   [clear H | apply (f_equal fst) in H; cbn [fst] in H]
               | |- wp (liftOutcome (ethers_parseUnits _ _ _)) _ _ _ =>
                   apply wp_liftOutcome;
                   destruct (ethers_parseUnits C (flashLoanAmount o)
                               (decimals (tokenIn o))) eqn:?
               | |- _ => wp_step
               end).
  all: unfold legs; cbn [built flat_map builtBy snd call returned app].
  all: first
    [ left; reflexivity
    | right;
      match goal with
      | Hb : fst (?f _ (mkParams _ _ (ofZ ?z) _) ?w0) = inr ?b |- _ =>
          exists f, z, w0, b; cbv zeta;
          split; [reflexivity |]; split; [reflexivity |];
          split; [exact Hb |];
          first [left; reflexivity | right; reflexivity]
      end ].
Qed.

End Legs.

Lemma swap_legs_mirror_witness :
  let cfg := Fixture.config true None None in
  let C := Fixture.collaborators Fixture.noFaults (Some cfg)
             (Some Fixture.walletKey) "5" "30" in
  let build : SwapBuilder Fixture.World :=
    fun _ params w => (inr (mkSwap (amount params ++ "0")), w) in
  let o := Fixture.opportunity 25 in
  let t := snd (snd (run (executeArbitrageTradeWith C (Some build) "user-1"
                            o false) 0%Z)) in
  (forall w, fst (storage_getBotConfig C "user-1" w) = inr (Some cfg))
  /\ map amount (built t)
     = ["1000000000000000000000"; "10000000000000000000000"]
  /\ (built t = []
      \/ exists build' loanAmount w0 buySwap,
           let dexAggregator :=
             newDexAggregator (orStr (oneinchApiKey cfg) None) in
           let buy := mkParams (address (tokenIn o)) (address (tokenOut o))
                               (ofZ loanAmount) (privateKey cfg) in
           let sell := mkParams (address (tokenOut o)) (address (tokenIn o))
                                (swap_toAmount buySwap) (privateKey cfg) in
           Some build = Some build'
           /\ ethers_parseUnits C (flashLoanAmount o) (decimals (tokenIn o))
              = inr loanAmount
           /\ fst (build' dexAggregator buy w0) = inr buySwap
           /\ (built t = [buy] \/ built t = [buy; sell])).
Proof.
  split; [reflexivity |]. split; [vm_compute; reflexivity |].
  pose proof (swap_legs_mirror
                (Fixture.collaborators Fixture.noFaults
                   (Some (Fixture.config true None None))
                   (Some Fixture.walletKey) "5" "30")
                (Some (fun _ params w =>
                         (inr (mkSwap (amount params ++ "0")), w)))
                "user-1" (Fixture.opportunity 25)
                (Fixture.config true None None) (fun _ => eq_refl) 0%Z) as H.
  destruct (run _ _) as [out [w' t]] in H |- *. exact H.
Defined.
